(** * scribe-server: the request resolver of [server.ServeHTTP]

    A shallow embedding of [server/config.go] and [server/server.go]
    (package [server]) together with the parts of the Go standard library
    the handler calls ([strings], [path/filepath] on Unix, [os], [io],
    [log], [net/http]).  Strings are byte strings, as in Go.  The handler
    is a computation in a state monad over the response writer, the log
    and the trace of file-system calls; the file system itself is an
    arbitrary pair of functions answering [os.Stat] and [os.Open]. *)

From stdpp Require Import gmap strings list.
From Stdlib Require Import ZArith Ascii String Bool Lia.

Local Open Scope Z_scope.

(* ------------------------------------------------------------------ *)
(** ** Package [strings] *)
(* ------------------------------------------------------------------ *)

Module GoStrings.

(** [s[i:j]] for [i <= j <= len(s)]. *)
Definition slice (s : string) (i j : nat) : string :=
  substring i (j - i) s.

(** [strings.HasSuffix(s, suffix)]:
    [len(s) >= len(suffix) && s[len(s)-len(suffix):] == suffix]. *)
Definition HasSuffix (s suffix : string) : bool :=
  (String.length suffix <=? String.length s)%nat
  && String.eqb
       (slice s (String.length s - String.length suffix) (String.length s))
       suffix.

(** ['A' <= c && c <= 'Z'] gives [c + ('a' - 'A')]. *)
Definition lower_byte (c : ascii) : ascii :=
  let n := nat_of_ascii c in
  if ((65 <=? n) && (n <=? 90))%nat then ascii_of_nat (n + 32) else c.

(** [strings.ToLower].  On ASCII bytes it is [lower_byte].  Exactly two
    runes outside ASCII have an ASCII lower case in Go's [unicode]
    tables: U+0130 (bytes C4 B0) lowers to ['i'] and U+212A (bytes
    E2 84 AA) lowers to ['k'].  Every other byte above 7F is kept here;
    Go turns it into some rune outside ASCII, which compares unequal to
    every ASCII literal either way. *)
Fixpoint ToLower (s : string) : string :=
  match s with
  | EmptyString => EmptyString
  | String c1 r1 =>
      match r1 with
      | String c2 r2 =>
          if ((nat_of_ascii c1 =? 196) && (nat_of_ascii c2 =? 176))%nat
          then String "i" (ToLower r2)
          else
            match r2 with
            | String c3 r3 =>
                if ((nat_of_ascii c1 =? 226) && (nat_of_ascii c2 =? 132)
                    && (nat_of_ascii c3 =? 170))%nat
                then String "k" (ToLower r3)
                else String (lower_byte c1) (ToLower r1)
            | EmptyString => String (lower_byte c1) (ToLower r1)
            end
      | EmptyString => String (lower_byte c1) EmptyString
      end
  end.

(** [strings.Join(elems, sep)]. *)
Definition Join (elems : list string) (sep : string) : string :=
  String.concat sep elems.

End GoStrings.

(* ------------------------------------------------------------------ *)
(** ** Package [path/filepath] (Unix: the separator is ['/'], no volume) *)
(* ------------------------------------------------------------------ *)

Module GoFilepath.

Definition Separator : ascii := "/"%char.

Definition IsPathSeparator (c : ascii) : bool := Ascii.eqb c Separator.

(** The path elements between separators; ["a//b"] has the elements
    ["a"], [""], ["b"], and the empty path has the one element [""]. *)
Fixpoint elements (path : string) : list string :=
  match path with
  | EmptyString => [EmptyString]
  | String c rest =>
      if IsPathSeparator c then EmptyString :: elements rest
      else match elements rest with
           | e :: es => String c e :: es
           | [] => [String c EmptyString]
           end
  end.

Definition rooted (path : string) : bool :=
  match path with
  | String c _ => IsPathSeparator c
  | EmptyString => false
  end.

(** One step of [Clean]'s loop, on a whole path element.  [out] holds
    the elements written so far, the last written first.  The elements
    [".."] are only ever written below every real element, so "the top
    is a real element" is Go's test [out.w > dotdot]. *)
Definition clean_step (is_rooted : bool) (out : list string) (e : string)
  : list string :=
  if String.eqb e "" then out                 (* empty path element *)
  else if String.eqb e "." then out           (* . element *)
  else if String.eqb e ".." then              (* .. element *)
    match out with
    | top :: below =>
        if String.eqb top ".." then
          if is_rooted then out else ".." :: out
        else below                            (* can backtrack *)
    | [] => if is_rooted then out else [".."]
    end
  else e :: out.                              (* real path element *)

Definition render (is_rooted : bool) (elems : list string) : string :=
  if is_rooted then "/" +:+ GoStrings.Join elems "/"
  else match elems with
       | [] => "."                            (* turn empty string into "." *)
       | _ => GoStrings.Join elems "/"
       end.

(** [filepath.Clean]. *)
Definition Clean (path : string) : string :=
  if String.eqb path "" then "."
  else
    let r := rooted path in
    render r (rev (fold_left (clean_step r) (elements path) [])).

(** [filepath.Join]: empty elements are ignored, the rest is joined
    with the separator and cleaned. *)
Fixpoint Join (elem : list string) : string :=
  match elem with
  | [] => ""
  | e :: rest =>
      if String.eqb e "" then Join rest
      else Clean (GoStrings.Join elem "/")
  end.

(** The loop of [filepath.Ext]: [i] bytes are still to be scanned, the
    next one is [path[i-1]]. *)
Fixpoint Ext_loop (path : string) (i : nat) : string :=
  match i with
  | O => ""
  | S j =>
      match String.get j path with
      | Some c =>
          if IsPathSeparator c then ""
          else if Ascii.eqb c "." then
            GoStrings.slice path j (String.length path)
          else Ext_loop path j
      | None => ""
      end
  end.

(** [filepath.Ext]. *)
Definition Ext (path : string) : string :=
  Ext_loop path (String.length path).

End GoFilepath.

Arguments GoFilepath.Clean : simpl never.
Arguments GoFilepath.Join : simpl never.
Arguments GoFilepath.Ext : simpl never.
Arguments GoStrings.HasSuffix : simpl never.
Arguments GoStrings.ToLower : simpl never.

(* ------------------------------------------------------------------ *)
(** ** The world a request runs in: [os], [io], [log], [net/http] *)
(* ------------------------------------------------------------------ *)

(** Go's [error] values, as far as the handler can tell them apart: it
    only tests [err != nil] and prints the message with [%v]. *)
Inductive Errno : Type :=
| ENOENT | EACCES | ENOTDIR | EIO | EPIPE.

Definition Errno_string (e : Errno) : string :=
  match e with
  | ENOENT => "no such file or directory"
  | EACCES => "permission denied"
  | ENOTDIR => "not a directory"
  | EIO => "input/output error"
  | EPIPE => "broken pipe"
  end.

Inductive error : Type :=
| PathError (Op Path : string) (Err : Errno)
| errorString (msg : string).

(** [err.Error()], what [%v] prints. *)
Definition Error (e : error) : string :=
  match e with
  | PathError op path err => op +:+ " " +:+ path +:+ ": " +:+ Errno_string err
  | errorString msg => msg
  end.

Module GoOs.

(** [os.FileInfo]; the handler only calls [IsDir]. *)
Record FileInfo : Type := { IsDir : bool }.

(** An open [*os.File], seen through the one thing done with it:
    [io.Copy(w, file)] moves [copied] to the writer and then stops, at
    the end of the file ([copy_err = None]) or at a read or write
    failure. *)
Record File : Type := {
  copied : string;
  copy_err : option error
}.

(** The file system the process sees.  Nothing relates the two calls:
    a path may pass [Stat] and fail [Open]. *)
Record FileSystem : Type := {
  Stat : string -> error + FileInfo;
  Open : string -> error + File
}.

End GoOs.

(** The calls a request makes on the file system, in order. *)
Inductive FsCall : Type :=
| CallStat (name : string)
| CallOpen (name : string)
| CallCopy (name : string)
| CallClose (name : string).

Module GoHttp.

Definition StatusOK : Z := 200.
Definition StatusNotFound : Z := 404.

(** [http.ResponseWriter], as the handler drives it: the header map
    [w.Header()] with the entries the handler set, the status line once
    it is written, and the body written so far.  What [net/http] adds on
    its own when it sends the header (Date, Content-Length, a sniffed
    Content-Type when the handler set none) is not the handler's doing
    and is left out. *)
Record ResponseWriter : Type := {
  Header : gmap string string;
  wroteHeader : option Z;
  body : string
}.

Definition NewRecorder : ResponseWriter :=
  {| Header := ∅; wroteHeader := None; body := "" |}.

Definition Header_Set (k v : string) (w : ResponseWriter) : ResponseWriter :=
  {| Header := <[k := v]> (Header w);
     wroteHeader := wroteHeader w; body := body w |}.

(** A second [WriteHeader] is ignored. *)
Definition WriteHeader (code : Z) (w : ResponseWriter) : ResponseWriter :=
  match wroteHeader w with
  | Some _ => w
  | None => {| Header := Header w; wroteHeader := Some code; body := body w |}
  end.

(** [Write] sends the status line [200] first when none was written. *)
Definition Write (b : string) (w : ResponseWriter) : ResponseWriter :=
  let w' := WriteHeader StatusOK w in
  {| Header := Header w'; wroteHeader := wroteHeader w';
     body := body w' +:+ b |}.

(** [http.Error(w, error, code)]. *)
Definition Error (msg : string) (code : Z) (w : ResponseWriter)
  : ResponseWriter :=
  let w := Header_Set "Content-Type" "text/plain; charset=utf-8" w in
  let w := Header_Set "X-Content-Type-Options" "nosniff" w in
  let w := WriteHeader code w in
  Write (msg +:+ String (ascii_of_nat 10) "") w.

(** [http.NotFound(w, r)]. *)
Definition NotFound (w : ResponseWriter) : ResponseWriter :=
  Error "404 page not found" StatusNotFound w.

(** The status the client receives: a handler that returns without
    writing a status line has answered [200]. *)
Definition StatusCode (w : ResponseWriter) : Z :=
  match wroteHeader w with
  | Some code => code
  | None => StatusOK
  end.

(** [r.URL.Path] is all the handler reads of the request. *)
Record Request : Type := { URL_Path : string }.

End GoHttp.

(** [*log.Logger]: [log.New(os.Stdout, ...)] or [log.New(io.Discard, ...)].
    Lines are kept without prefix and time stamp. *)
Inductive Logger : Type :=
| StdoutLogger
| DiscardLogger.

Record World : Type := {
  resp : GoHttp.ResponseWriter;
  logged : list string;
  calls : list FsCall
}.

Definition new_world : World :=
  {| resp := GoHttp.NewRecorder; logged := []; calls := [] |}.

(** A small state monad over the world. *)
Definition M (A : Type) : Type := World -> A * World.

Definition ret {A} (a : A) : M A := fun w => (a, w).
Definition bind {A B} (m : M A) (k : A -> M B) : M B :=
  fun w => let (a, w') := m w in k a w'.

Notation "x <- m ;; k" := (bind m (fun x => k))
  (at level 100, m at next level, right associativity).
Notation "m ;;; k" := (bind m (fun _ => k))
  (at level 100, right associativity).

Definition on_resp (f : GoHttp.ResponseWriter -> GoHttp.ResponseWriter)
  : M unit :=
  fun w => (tt, {| resp := f (resp w); logged := logged w; calls := calls w |}).

Definition call (c : FsCall) : M unit :=
  fun w => (tt, {| resp := resp w; logged := logged w;
                   calls := calls w ++ [c] |}).

(** [l.Printf(...)], with the line already formatted. *)
Definition Printf (l : Logger) (line : string) : M unit :=
  fun w =>
    match l with
    | StdoutLogger =>
        (tt, {| resp := resp w; logged := logged w ++ [line];
                calls := calls w |})
    | DiscardLogger => (tt, w)
    end.

Definition os_Stat (fs : GoOs.FileSystem) (name : string)
  : M (error + GoOs.FileInfo) :=
  call (CallStat name) ;;; ret (GoOs.Stat fs name).

Definition os_Open (fs : GoOs.FileSystem) (name : string)
  : M (error + GoOs.File) :=
  call (CallOpen name) ;;; ret (GoOs.Open fs name).

(** [io.Copy(w, file)] for the file opened at [name]. *)
Definition io_Copy (name : string) (file : GoOs.File) : M (option error) :=
  call (CallCopy name) ;;;
  on_resp (GoHttp.Write (GoOs.copied file)) ;;;
  ret (GoOs.copy_err file).

Definition file_Close (name : string) : M unit := call (CallClose name).

(* ------------------------------------------------------------------ *)
(** ** Package [server]: [config.go] *)
(* ------------------------------------------------------------------ *)

Record Config : Type := {
  RootDir : string;
  AddHtmlExtension : bool;
  EnableLogging : bool;
  NotFoundHandler : option (string -> string)
}.

Definition DefaultConfig : Config :=
  {| RootDir := "./public";
     AddHtmlExtension := true;
     EnableLogging := true;
     NotFoundHandler := None |}.

(* ------------------------------------------------------------------ *)
(** ** Package [server]: [server.go] *)
(* ------------------------------------------------------------------ *)

Record Server : Type := {
  config : Config;
  logger : Logger
}.

Definition NewServer (rootDir : string) : Server :=
  {| config := {| RootDir := rootDir;
                  AddHtmlExtension := true;
                  EnableLogging := true;
                  NotFoundHandler := None |};
     logger := StdoutLogger |}.

Definition NewServerWithConfig (config : Config) : Server :=
  let logger := if EnableLogging config then StdoutLogger else DiscardLogger in
  {| config := config; logger := logger |}.

(** The [switch] compares [ext] with each literal in turn. *)
Definition getContentType (ext : string) : string :=
  let ext := GoStrings.ToLower ext in
  if String.eqb ext ".html" || String.eqb ext ".htm" then "text/html"
  else if String.eqb ext ".css" then "text/css"
  else if String.eqb ext ".js" then "application/javascript"
  else if String.eqb ext ".json" then "application/json"
  else if String.eqb ext ".png" then "image/png"
  else if String.eqb ext ".jpg" || String.eqb ext ".jpeg" then "image/jpeg"
  else if String.eqb ext ".gif" then "image/gif"
  else if String.eqb ext ".svg" then "image/svg+xml"
  else if String.eqb ext ".xml" then "application/xml"
  else if String.eqb ext ".pdf" then "application/pdf"
  else if String.eqb ext ".txt" then "text/plain"
  else "".

Definition tryServeFile (s : Server) (fs : GoOs.FileSystem) (fullPath : string)
  : M bool :=
  st <- os_Stat fs fullPath ;;
  match st with
  | inl _ => ret false
  | inr info =>
      if GoOs.IsDir info then ret false
      else
        op <- os_Open fs fullPath ;;
        match op with
        | inl err =>
            Printf (logger s)
              ("Error opening file " +:+ fullPath +:+ ": " +:+ Error err) ;;;
            ret false
        | inr file =>
            let contentType := getContentType (GoFilepath.Ext fullPath) in
            (if String.eqb contentType "" then ret tt
             else on_resp (GoHttp.Header_Set "Content-Type" contentType)) ;;;
            Printf (logger s) ("Serving file: " +:+ fullPath) ;;;
            err <- io_Copy fullPath file ;;
            match err with
            | Some e =>
                Printf (logger s)
                  ("Error serving file " +:+ fullPath +:+ ": " +:+ Error e)
            | None => ret tt
            end ;;;
            file_Close fullPath ;;;
            ret true
        end
  end.

Definition ServeHTTP (s : Server) (fs : GoOs.FileSystem) (r : GoHttp.Request)
  : M unit :=
  let path := GoFilepath.Clean (GoHttp.URL_Path r) in
  let path := if String.eqb path "/" then "/index.html" else path in
  Printf (logger s) ("Handling request for: " +:+ path) ;;;
  let path :=
    if (1 <? String.length path)%nat && GoStrings.HasSuffix path "/"
    then GoStrings.slice path 0 (String.length path - 1)
    else path in
  let fullPath := GoFilepath.Join [RootDir (config s); path] in
  served <- tryServeFile s fs fullPath ;;
  if served then ret tt
  else
    served <-
      (if AddHtmlExtension (config s) && String.eqb (GoFilepath.Ext path) ""
       then tryServeFile s fs (fullPath +:+ ".html")
       else ret false) ;;
    if served then ret tt
    else
      served <-
        (if GoStrings.HasSuffix (GoHttp.URL_Path r) "/"
         then tryServeFile s fs (GoFilepath.Join [fullPath; "index.html"])
         else ret false) ;;
      if served then ret tt
      else
        Printf (logger s) ("Not found: " +:+ path) ;;;
        match NotFoundHandler (config s) with
        | Some handler =>
            let content := handler path in
            on_resp (GoHttp.WriteHeader GoHttp.StatusNotFound) ;;;
            on_resp (GoHttp.Write content)
        | None => on_resp GoHttp.NotFound
        end.

(* ------------------------------------------------------------------ *)
(** ** What a run shows, and the resolution order in the spec's words *)
(* ------------------------------------------------------------------ *)

(** The paths handed to [os.Stat], in order. *)
Definition probes (w : World) : list string :=
  omap (fun c => match c with CallStat p => Some p | _ => None end) (calls w).

(** The path of the file whose bytes were copied to the response. *)
Definition served_file (w : World) : option string :=
  head (omap (fun c => match c with CallCopy p => Some p | _ => None end)
          (calls w)).

Inductive ResolutionResult : Type :=
| Found (path : string) (contentType : option string)
| NotFound.

(** The result of a request, read off the world it leaves. *)
Definition outcome (w : World) : ResolutionResult :=
  match served_file w with
  | Some p => Found p (GoHttp.Header (resp w) !! "Content-Type")
  | None => NotFound
  end.

Definition run (s : Server) (fs : GoOs.FileSystem) (raw : string) : World :=
  snd (ServeHTTP s fs {| GoHttp.URL_Path := raw |} new_world).

(** "An existing regular (non-directory) file". *)
Definition is_file (fs : GoOs.FileSystem) (p : string) : bool :=
  match GoOs.Stat fs p with
  | inr info => negb (GoOs.IsDir info)
  | inl _ => false
  end.

Definition opens (fs : GoOs.FileSystem) (p : string) : bool :=
  match GoOs.Open fs p with
  | inr _ => true
  | inl _ => false
  end.

Definition servable (fs : GoOs.FileSystem) (p : string) : bool :=
  is_file fs p && opens fs p.

(** Steps 1 and 2 of the spec: the cleaned path, ["/"] rewritten to
    ["/index.html"], one trailing slash stripped. *)
Definition request_path (raw : string) : string :=
  let cleaned := GoFilepath.Clean raw in
  let cleaned := if String.eqb cleaned "/" then "/index.html" else cleaned in
  if (1 <? String.length cleaned)%nat && GoStrings.HasSuffix cleaned "/"
  then GoStrings.slice cleaned 0 (String.length cleaned - 1)
  else cleaned.

Definition candidate_A (c : Config) (raw : string) : string :=
  GoFilepath.Join [RootDir c; request_path raw].

Definition candidate_B (c : Config) (raw : string) : string :=
  candidate_A c raw +:+ ".html".

Definition candidate_C (c : Config) (raw : string) : string :=
  GoFilepath.Join [candidate_A c raw; "index.html"].

Definition tries_B (c : Config) (raw : string) : bool :=
  AddHtmlExtension c && String.eqb (GoFilepath.Ext (request_path raw)) "".

Definition tries_C (raw : string) : bool := GoStrings.HasSuffix raw "/".

(** The candidate sequence with the directory index gated by the raw
    path's trailing slash. *)
Definition candidates (c : Config) (raw : string) : list string :=
  [candidate_A c raw]
  ++ (if tries_B c raw then [candidate_B c raw] else [])
  ++ (if tries_C raw then [candidate_C c raw] else []).

(** The candidate sequence with the directory index always in it. *)
Definition candidates_ungated (c : Config) (raw : string) : list string :=
  [candidate_A c raw]
  ++ (if tries_B c raw then [candidate_B c raw] else [])
  ++ [candidate_C c raw].

Definition content_type_of (p : string) : option string :=
  let ct := getContentType (GoFilepath.Ext p) in
  if String.eqb ct "" then None else Some ct.

(** First success wins. *)
Definition resolve_in (ok : string -> bool) (cands : list string)
  : ResolutionResult :=
  match find ok cands with
  | Some p => Found p (content_type_of p)
  | None => NotFound
  end.

(** The candidates up to and including the first one that [ok] accepts. *)
Fixpoint tried (ok : string -> bool) (cands : list string) : list string :=
  match cands with
  | [] => []
  | p :: rest => if ok p then [p] else p :: tried ok rest
  end.

(** The extension table of the spec. *)
Definition content_type_table : list (string * string) :=
  [ (".html", "text/html"); (".htm", "text/html"); (".css", "text/css");
    (".js", "application/javascript"); (".json", "application/json");
    (".png", "image/png"); (".jpg", "image/jpeg"); (".jpeg", "image/jpeg");
    (".gif", "image/gif"); (".svg", "image/svg+xml");
    (".xml", "application/xml"); (".pdf", "application/pdf");
    (".txt", "text/plain") ].

Fixpoint table_lookup (ext : string) (t : list (string * string))
  : option string :=
  match t with
  | [] => None
  | (e, m) :: rest => if String.eqb ext e then Some m else table_lookup ext rest
  end.

(** The response of the not-found branch. *)
Definition not_found_response (c : Config) (path : string)
  : GoHttp.ResponseWriter :=
  match NotFoundHandler c with
  | Some handler =>
      GoHttp.Write (handler path)
        (GoHttp.WriteHeader GoHttp.StatusNotFound GoHttp.NewRecorder)
  | None => GoHttp.NotFound GoHttp.NewRecorder
  end.

(** The response after [file], opened at [p], was copied out. *)
Definition file_response (p : string) (file : GoOs.File)
  : GoHttp.ResponseWriter :=
  let w := match content_type_of p with
           | Some ct => GoHttp.Header_Set "Content-Type" ct GoHttp.NewRecorder
           | None => GoHttp.NewRecorder
           end in
  GoHttp.Write (GoOs.copied file) w.

(* ------------------------------------------------------------------ *)
(** ** A file system for examples: the tree of [server_test.go] *)
(* ------------------------------------------------------------------ *)

Inductive Node : Type :=
| Dir
| Regular (content : string)
| Unreadable            (* [Stat] succeeds, [Open] is refused *)
| Hidden                (* [Stat] itself is refused *)
| Truncated (content : string).   (* the copy breaks after [content] *)

Definition tree_fs (tree : gmap string Node) : GoOs.FileSystem :=
  {| GoOs.Stat := fun name =>
       match tree !! name with
       | Some Dir => inr {| GoOs.IsDir := true |}
       | Some Hidden => inl (PathError "stat" name EACCES)
       | Some _ => inr {| GoOs.IsDir := false |}
       | None => inl (PathError "stat" name ENOENT)
       end;
     GoOs.Open := fun name =>
       match tree !! name with
       | Some Dir => inr {| GoOs.copied := ""; GoOs.copy_err :=
                              Some (PathError "read" name EIO) |}
       | Some (Regular content) =>
           inr {| GoOs.copied := content; GoOs.copy_err := None |}
       | Some (Truncated content) =>
           inr {| GoOs.copied := content; GoOs.copy_err :=
                    Some (PathError "read" name EIO) |}
       | Some Unreadable | Some Hidden => inl (PathError "open" name EACCES)
       | None => inl (PathError "open" name ENOENT)
       end |}.

(** [createTestFiles] under the root ["/site"]. *)
Definition test_tree : gmap string Node :=
  list_to_map
    [ ("/site", Dir);
      ("/site/index.html", Regular "<html><body>Index Page</body></html>");
      ("/site/about.html", Regular "<html><body>About Page</body></html>");
      ("/site/nested", Dir);
      ("/site/nested/index.html",
        Regular "<html><body>Nested Page</body></html>") ].

Definition test_fs : GoOs.FileSystem := tree_fs test_tree.

(* ------------------------------------------------------------------ *)
(** ** Worlds after an attempt *)
(* ------------------------------------------------------------------ *)

Definition add_calls (cs : list FsCall) (w : World) : World :=
  {| resp := resp w; logged := logged w; calls := calls w ++ cs |}.

Definition add_log (l : Logger) (lines : list string) (w : World) : World :=
  match l with
  | StdoutLogger =>
      {| resp := resp w; logged := logged w ++ lines; calls := calls w |}
  | DiscardLogger => w
  end.

Definition set_resp (r : GoHttp.ResponseWriter) (w : World) : World :=
  {| resp := r; logged := logged w; calls := calls w |}.

(** The world after a successful attempt on [p]. *)
Definition served_world (s : Server) (p : string) (file : GoOs.File)
  (w : World) : World :=
  let r := match content_type_of p with
           | Some ct => GoHttp.Header_Set "Content-Type" ct (resp w)
           | None => resp w
           end in
  {| resp := GoHttp.Write (GoOs.copied file) r;
     logged := logged
                 (add_log (logger s)
                    (("Serving file: " +:+ p)
                     :: match GoOs.copy_err file with
                        | Some e => ["Error serving file " +:+ p +:+ ": "
                                     +:+ Error e]
                        | None => []
                        end) w);
     calls := calls w ++ [CallStat p; CallOpen p; CallCopy p; CallClose p] |}.

(* ------------------------------------------------------------------ *)
(** ** Auxiliary definitions of the proofs and further fixtures *)
(* ------------------------------------------------------------------ *)

(** What every failed attempt leaves: the response untouched, one more
    probe, no copy. *)
Record missed (p : string) (w w' : World) : Prop := {
  missed_resp : resp w' = resp w;
  missed_probes : probes w' = probes w ++ [p];
  missed_served : served_file w' = served_file w
}.

(** Try the candidates in order and stop at the first that is served. *)
Fixpoint try_each (s : Server) (fs : GoOs.FileSystem) (cands : list string)
  : M bool :=
  match cands with
  | [] => ret false
  | p :: rest =>
      served <- tryServeFile s fs p ;;
      if served then ret true else try_each s fs rest
  end.

(** The not-found branch of [ServeHTTP]. *)
Definition handle_404 (s : Server) (path : string) : M unit :=
  Printf (logger s) ("Not found: " +:+ path) ;;;
  match NotFoundHandler (config s) with
  | Some handler =>
      on_resp (GoHttp.WriteHeader GoHttp.StatusNotFound) ;;;
      on_resp (GoHttp.Write (handler path))
  | None => on_resp GoHttp.NotFound
  end.

(** The line logged on entry names the path before the slash is stripped. *)
Definition entry_line (raw : string) : string :=
  let cleaned := GoFilepath.Clean raw in
  "Handling request for: "
  +:+ (if String.eqb cleaned "/" then "/index.html" else cleaned).

(** No separator inside. *)
Fixpoint no_sep (s : string) : bool :=
  match s with
  | EmptyString => true
  | String c r => negb (GoFilepath.IsPathSeparator c) && no_sep r
  end.

(** What [Clean] writes: a name, or [".."]. *)
Definition element (e : string) : Prop :=
  e <> "" /\ e <> "." /\ no_sep e = true.

(** A real path element. *)
Definition normal (e : string) : Prop := element e /\ e <> "..".

(** The shape of [Clean]'s output buffer (last written first): real
    elements on top of the leading [".."]s, and no [".."] at all in a
    rooted path. *)
Definition valid_out (r : bool) (out : list string) : Prop :=
  exists n tops,
    out = tops ++ repeat ".." n
    /\ Forall normal tops
    /\ (r = true -> n = O).

(** The named elements of a path: its elements without the empty ones
    and the [.] ones. *)
Definition segs (path : string) : list string :=
  List.filter (fun e => negb (String.eqb e "") && negb (String.eqb e "."))
    (GoFilepath.elements path).

Fixpoint drop_prefix (pre l : list string) : option (list string) :=
  match pre with
  | [] => Some l
  | p :: pre' =>
      match l with
      | x :: l' => if String.eqb p x then drop_prefix pre' l' else None
      | [] => None
      end
  end.

(** [cand] lies within [root]: it is absolute exactly when the cleaned
    root is, its named elements start with those of the cleaned root, and
    none of the elements after them is [".."].  The empty root is Go's
    ["."]. *)
Definition within (root cand : string) : bool :=
  let base := GoFilepath.Clean root in
  Bool.eqb (GoFilepath.rooted cand) (GoFilepath.rooted base)
  && match drop_prefix (segs base) (segs cand) with
     | Some rest => forallb (fun e => negb (String.eqb e "..")) rest
     | None => false
     end.

(** Two extensions that differ at most in the case of ASCII letters. *)
Fixpoint same_but_case (a b : string) : bool :=
  match a, b with
  | EmptyString, EmptyString => true
  | String c a', String d b' =>
      Ascii.eqb (GoStrings.lower_byte c) (GoStrings.lower_byte d)
      && same_but_case a' b'
  | _, _ => false
  end.

(** Status and body of the response to a request, as the tests read
    them off the recorder. *)
Definition answer (s : Server) (fs : GoOs.FileSystem) (raw : string)
  : Z * string :=
  (GoHttp.StatusCode (resp (run s fs raw)), GoHttp.body (resp (run s fs raw))).

(** A server with a custom not-found handler, as in
    [TestServerWithCustomConfig]. *)
Definition customNotFound (path : string) : string :=
  "Custom 404: " +:+ path +:+ " not found".

Definition custom_server : Server :=
  NewServerWithConfig
    {| RootDir := "/site";
       AddHtmlExtension := false;
       EnableLogging := false;
       NotFoundHandler := Some customNotFound |}.

(** A tree in which one file breaks while it is copied, one cannot be
    opened and one cannot even be examined. *)
Definition faulty_tree : gmap string Node :=
  list_to_map
    [ ("/site", Dir);
      ("/site/video", Truncated "RIFF");
      ("/site/video.html", Regular "<html>video</html>");
      ("/site/locked", Unreadable);
      ("/site/locked.html", Regular "<html>locked</html>");
      ("/site/secret", Hidden);
      ("/site/secret.html", Regular "<html>secret</html>") ].

Definition faulty_fs : GoOs.FileSystem := tree_fs faulty_tree.

(** A server started with an empty root directory, and a file outside
    every served tree. *)
Definition rootless_server : Server := NewServer "".

Definition system_fs : GoOs.FileSystem :=
  tree_fs (list_to_map [ ("/etc", Dir); ("/etc/passwd", Regular "root:x:0:0") ]).

(* ------------------------------------------------------------------ *)
(** ** The rest of the repository: what an attempt does to the trace and
       the log, [main.go], the example program, the helper of the tests *)
(* ------------------------------------------------------------------ *)

(** The file-system calls of one [tryServeFile] on [p], read off its
    branches. *)
Definition attempt_calls (fs : GoOs.FileSystem) (p : string) : list FsCall :=
  CallStat p
  :: match GoOs.Stat fs p with
     | inl _ => []
     | inr info =>
         if GoOs.IsDir info then []
         else CallOpen p
              :: match GoOs.Open fs p with
                 | inl _ => []
                 | inr _ => [CallCopy p; CallClose p]
                 end
     end.

(** The lines one [tryServeFile] on [p] hands to the logger. *)
Definition attempt_lines (fs : GoOs.FileSystem) (p : string) : list string :=
  match GoOs.Stat fs p with
  | inl _ => []
  | inr info =>
      if GoOs.IsDir info then []
      else match GoOs.Open fs p with
           | inl err => ["Error opening file " +:+ p +:+ ": " +:+ Error err]
           | inr file =>
               ("Serving file: " +:+ p)
               :: match GoOs.copy_err file with
                  | Some e =>
                      ["Error serving file " +:+ p +:+ ": " +:+ Error e]
                  | None => []
                  end
           end
  end.

Definition is_copy (c : FsCall) : bool :=
  match c with CallCopy _ => true | _ => false end.

(** [main.go]: the parsed command line. *)
Record Flags : Type := {
  flag_port : string;
  flag_dir : string;
  flag_noHtmlExt : bool;
  flag_noLogging : bool
}.

(** The defaults given to [flag.String] and [flag.Bool]. *)
Definition default_flags : Flags :=
  {| flag_port := "8080"; flag_dir := "./public";
     flag_noHtmlExt := false; flag_noLogging := false |}.

(** The [server.Config] literal of [main.go]. *)
Definition main_config (f : Flags) : Config :=
  {| RootDir := flag_dir f;
     AddHtmlExtension := negb (flag_noHtmlExt f);
     EnableLogging := negb (flag_noLogging f);
     NotFoundHandler := None |}.

Definition main_server (f : Flags) : Server :=
  NewServerWithConfig (main_config f).

(** The address handed to [http.ListenAndServe]. *)
Definition main_address (f : Flags) : string := ":" +:+ flag_port f.

(** The example program: [dir] is [os.Args[1]] when there is one. *)
Definition example_dir (args : list string) : string :=
  match args with
  | _ :: d :: _ => d
  | _ => "./public"
  end.

Definition example_basicServer (args : list string) : Server :=
  NewServer (example_dir args).

(** [contains] of [server_test.go]: [i] runs from [0] while
    [i <= len(s)-len(substr)], a bound that is negative when [substr] is
    the longer one; [todo] counts the iterations left. *)
Fixpoint contains_loop (s substr : string) (i todo : nat) : bool :=
  match todo with
  | O => false
  | S todo' =>
      if String.eqb (GoStrings.slice s i (i + String.length substr)) substr
      then true
      else contains_loop s substr (S i) todo'
  end.

Definition contains (s substr : string) : bool :=
  contains_loop s substr 0
    (Z.to_nat (Z.of_nat (String.length s) - Z.of_nat (String.length substr)
               + 1)).

(* ------------------------------------------------------------------ *)
(** ** One attempt: [tryServeFile] *)
(* ------------------------------------------------------------------ *)

Lemma tryServeFile_stat_error s fs p w e :
  GoOs.Stat fs p = inl e ->
  tryServeFile s fs p w = (false, add_calls [CallStat p] w).
Proof.
  intros H. unfold tryServeFile, os_Stat, bind, call, ret, add_calls; simpl.
  rewrite H. reflexivity.
Qed.

Lemma tryServeFile_directory s fs p w info :
  GoOs.Stat fs p = inr info -> GoOs.IsDir info = true ->
  tryServeFile s fs p w = (false, add_calls [CallStat p] w).
Proof.
  intros H D. unfold tryServeFile, os_Stat, bind, call, ret, add_calls; simpl.
  rewrite H, D. reflexivity.
Qed.

Lemma tryServeFile_open_error s fs p w info e :
  GoOs.Stat fs p = inr info -> GoOs.IsDir info = false ->
  GoOs.Open fs p = inl e ->
  tryServeFile s fs p w =
    (false,
     add_log (logger s) ["Error opening file " +:+ p +:+ ": " +:+ Error e]
       (add_calls [CallStat p; CallOpen p] w)).
Proof.
  intros H D O.
  unfold tryServeFile, os_Stat, os_Open, bind, call, ret, add_calls; simpl.
  rewrite H, D; simpl. rewrite O. unfold Printf, add_log; simpl.
  rewrite <- app_assoc. destruct (logger s); reflexivity.
Qed.

Lemma tryServeFile_opened s fs p w info file :
  GoOs.Stat fs p = inr info -> GoOs.IsDir info = false ->
  GoOs.Open fs p = inr file ->
  tryServeFile s fs p w = (true, served_world s p file w).
Proof.
  intros H D O.
  unfold tryServeFile, os_Stat, os_Open, io_Copy, file_Close, bind, call, ret,
    served_world, content_type_of, on_resp, Printf, add_log; simpl.
  rewrite H, D; simpl. rewrite O.
  destruct (String.eqb (getContentType (GoFilepath.Ext p)) "");
    destruct (logger s); destruct (GoOs.copy_err file); simpl;
    repeat rewrite <- app_assoc; reflexivity.
Qed.

Lemma probes_add_calls cs w :
  probes (add_calls cs w) =
  probes w ++ omap (fun c => match c with CallStat p => Some p | _ => None end) cs.
Proof. unfold probes, add_calls; simpl. apply omap_app. Qed.

Lemma served_file_None_calls w :
  served_file w = None <->
  omap (fun c => match c with CallCopy p => Some p | _ => None end) (calls w) = [].
Proof.
  unfold served_file.
  destruct (omap _ (calls w)); simpl; split; congruence.
Qed.

Lemma tryServeFile_miss s fs p w :
  servable fs p = false ->
  fst (tryServeFile s fs p w) = false /\ missed p w (snd (tryServeFile s fs p w)).
Proof.
  unfold servable, is_file, opens. intros H.
  destruct (GoOs.Stat fs p) as [e|info] eqn:St.
  - rewrite (tryServeFile_stat_error _ _ _ _ _ St). simpl. split; [done|].
    split; simpl; try done.
    + rewrite probes_add_calls; reflexivity.
    + unfold served_file, add_calls; simpl. rewrite omap_app; simpl.
      rewrite app_nil_r; reflexivity.
  - destruct (GoOs.IsDir info) eqn:D.
    + rewrite (tryServeFile_directory _ _ _ _ _ St D). simpl. split; [done|].
      split; simpl; try done.
      * rewrite probes_add_calls; reflexivity.
      * unfold served_file, add_calls; simpl. rewrite omap_app; simpl.
        rewrite app_nil_r; reflexivity.
    + simpl in H. destruct (GoOs.Open fs p) as [e|file] eqn:O; [|discriminate].
      rewrite (tryServeFile_open_error _ _ _ _ _ _ St D O). simpl.
      split; [done|].
      split; destruct (logger s); simpl; try done.
      all: try (unfold probes; simpl; rewrite omap_app; reflexivity).
      all: unfold served_file; simpl; rewrite omap_app; simpl;
        rewrite app_nil_r; reflexivity.
Qed.

Lemma tryServeFile_hit s fs p w :
  servable fs p = true ->
  exists file, GoOs.Open fs p = inr file /\
    tryServeFile s fs p w = (true, served_world s p file w).
Proof.
  unfold servable, is_file, opens. intros H.
  destruct (GoOs.Stat fs p) as [e|info] eqn:St; [discriminate|].
  destruct (GoOs.IsDir info) eqn:D; [discriminate|].
  destruct (GoOs.Open fs p) as [e|file] eqn:O; [discriminate|].
  exists file. split; [done|]. eapply tryServeFile_opened; eauto.
Qed.

Lemma tryServeFile_returns s fs p w :
  fst (tryServeFile s fs p w) = servable fs p.
Proof.
  destruct (servable fs p) eqn:E.
  - destruct (tryServeFile_hit s fs p w E) as (f & _ & ->). reflexivity.
  - apply tryServeFile_miss, E.
Qed.

(* ------------------------------------------------------------------ *)
(** ** The handler as a first-success walk over the candidates *)
(* ------------------------------------------------------------------ *)

Lemma ServeHTTP_walk s fs raw w :
  ServeHTTP s fs {| GoHttp.URL_Path := raw |} w =
  (Printf (logger s) (entry_line raw) ;;;
   served <- try_each s fs (candidates (config s) raw) ;;
   if served then ret tt else handle_404 s (request_path raw)) w.
Proof.
  unfold ServeHTTP, candidates, handle_404, entry_line, bind.
  cbn [GoHttp.URL_Path].
  fold (request_path raw). fold (candidate_A (config s) raw).
  fold (candidate_B (config s) raw). fold (candidate_C (config s) raw).
  fold (tries_B (config s) raw). fold (tries_C raw).
  destruct (Printf _ _ w) as [[] w1].
  cbn [app try_each]. unfold bind.
  destruct (tryServeFile s fs _ w1) as [[] w2]; [reflexivity|].
  destruct (tries_B (config s) raw); cbn [app try_each]; unfold bind.
  - destruct (tryServeFile s fs _ w2) as [[] w3]; [reflexivity|].
    destruct (tries_C raw); cbn [app try_each]; unfold bind.
    + destruct (tryServeFile s fs _ w3) as [[] w4]; reflexivity.
    + reflexivity.
  - cbn [ret].
    destruct (tries_C raw); cbn [app try_each]; unfold bind.
    + destruct (tryServeFile s fs _ w2) as [[] w4]; reflexivity.
    + reflexivity.
Qed.

Lemma try_each_none s fs cands : forall w,
  find (servable fs) cands = None ->
  fst (try_each s fs cands w) = false
  /\ resp (snd (try_each s fs cands w)) = resp w
  /\ probes (snd (try_each s fs cands w)) = probes w ++ cands
  /\ served_file (snd (try_each s fs cands w)) = served_file w.
Proof.
  induction cands as [|p rest IH]; intros w H; simpl in *.
  - rewrite app_nil_r. done.
  - destruct (servable fs p) eqn:E; [discriminate|].
    destruct (tryServeFile_miss s fs p w E) as [F [R P S]].
    unfold bind. destruct (tryServeFile s fs p w) as [b w1]; simpl in *.
    subst b. destruct (IH w1 H) as (F' & R' & P' & S').
    rewrite F', R', P', S', R, P, S, <- app_assoc. done.
Qed.

Lemma try_each_some s fs cands p : forall w,
  find (servable fs) cands = Some p ->
  served_file w = None ->
  exists file w1,
    GoOs.Open fs p = inr file
    /\ resp w1 = resp w
    /\ try_each s fs cands w = (true, served_world s p file w1)
    /\ probes (served_world s p file w1)
       = probes w ++ tried (servable fs) cands
    /\ served_file (served_world s p file w1) = Some p.
Proof.
  induction cands as [|q rest IH]; intros w H N; simpl in *; [discriminate|].
  destruct (servable fs q) eqn:E.
  - injection H as ->.
    destruct (tryServeFile_hit s fs p w E) as (file & O & T).
    exists file, w. unfold bind. rewrite T. repeat split; try done.
    + unfold probes, served_world; simpl. rewrite omap_app. reflexivity.
    + apply served_file_None_calls in N.
      unfold served_file, served_world; simpl. rewrite omap_app, N.
      reflexivity.
  - destruct (tryServeFile_miss s fs q w E) as [F [R P S]].
    unfold bind. destruct (tryServeFile s fs q w) as [b w1]; simpl in *.
    subst b. rewrite N in S.
    destruct (IH w1 H S) as (file & w2 & O & R' & T & P' & S').
    exists file, w2. rewrite T, P', S', R', R, P, <- app_assoc. done.
Qed.

Lemma probes_add_log l lines w : probes (add_log l lines w) = probes w.
Proof. destruct l; reflexivity. Qed.

Lemma served_file_add_log l lines w :
  served_file (add_log l lines w) = served_file w.
Proof. destruct l; reflexivity. Qed.

Lemma resp_add_log l lines w : resp (add_log l lines w) = resp w.
Proof. destruct l; reflexivity. Qed.

Lemma Printf_add_log l line w : Printf l line w = (tt, add_log l [line] w).
Proof. destruct l; reflexivity. Qed.

Lemma run_walk s fs raw :
  run s fs raw =
  let w1 := add_log (logger s) [entry_line raw] new_world in
  let (served, w2) := try_each s fs (candidates (config s) raw) w1 in
  if served then w2 else snd (handle_404 s (request_path raw) w2).
Proof.
  unfold run. rewrite ServeHTTP_walk. unfold bind at 1.
  rewrite Printf_add_log. unfold bind at 1. cbv zeta.
  destruct (try_each s fs _ _) as [[] w2]; reflexivity.
Qed.

Lemma handle_404_world s path w :
  snd (handle_404 s path w) =
  set_resp
    (match NotFoundHandler (config s) with
     | Some handler =>
         GoHttp.Write (handler path)
           (GoHttp.WriteHeader GoHttp.StatusNotFound (resp w))
     | None => GoHttp.NotFound (resp w)
     end)
    (add_log (logger s) ["Not found: " +:+ path] w).
Proof.
  unfold handle_404, bind. rewrite Printf_add_log.
  destruct (NotFoundHandler (config s)); destruct (logger s); reflexivity.
Qed.

(** A request no candidate satisfies. *)
Lemma run_not_found s fs raw :
  find (servable fs) (candidates (config s) raw) = None ->
  resp (run s fs raw) = not_found_response (config s) (request_path raw)
  /\ probes (run s fs raw) = candidates (config s) raw
  /\ served_file (run s fs raw) = None.
Proof.
  intros H. rewrite run_walk. cbv zeta.
  set (w1 := add_log _ _ new_world).
  destruct (try_each_none s fs _ w1 H) as (F & R & P & S).
  destruct (try_each s fs _ w1) as [b w2]; simpl in F, R, P, S. subst b.
  rewrite handle_404_world.
  unfold set_resp, probes, served_file; cbn [resp calls].
  fold (probes (add_log (logger s) ["Not found: " +:+ request_path raw] w2)).
  fold (served_file
          (add_log (logger s) ["Not found: " +:+ request_path raw] w2)).
  rewrite probes_add_log, served_file_add_log, P, S. subst w1.
  rewrite probes_add_log, served_file_add_log, R, resp_add_log.
  unfold not_found_response.
  destruct (NotFoundHandler (config s)); repeat split; reflexivity.
Qed.

(** A request some candidate satisfies. *)
Lemma run_found s fs raw p :
  find (servable fs) (candidates (config s) raw) = Some p ->
  exists file,
    GoOs.Open fs p = inr file
    /\ resp (run s fs raw) = file_response p file
    /\ probes (run s fs raw) = tried (servable fs) (candidates (config s) raw)
    /\ served_file (run s fs raw) = Some p.
Proof.
  intros H. rewrite run_walk. cbv zeta.
  set (w1 := add_log _ _ new_world).
  assert (N : served_file w1 = None)
    by (subst w1; rewrite served_file_add_log; reflexivity).
  destruct (try_each_some s fs _ p w1 H N) as (file & w2 & O & R & T & P & S).
  rewrite T. exists file. split; [done|].
  rewrite P, S. subst w1. rewrite probes_add_log. split; [|done].
  unfold served_world, file_response; cbn [resp]. rewrite R, resp_add_log.
  reflexivity.
Qed.

(* ------------------------------------------------------------------ *)
(** ** Path elements, [Clean] and [Join] *)
(* ------------------------------------------------------------------ *)

Section PathFacts.
Import GoFilepath.

Lemma append_cons c (a b : string) : String c a +:+ b = String c (a +:+ b).
Proof. reflexivity. Qed.

Lemma append_nil_l (b : string) : "" +:+ b = b.
Proof. reflexivity. Qed.

Lemma append_assoc (a b c : string) : (a +:+ b) +:+ c = a +:+ (b +:+ c).
Proof.
  induction a as [|x a IH]; [reflexivity|]. by rewrite !append_cons, IH.
Qed.

Lemma append_nil_r (a : string) : a +:+ "" = a.
Proof.
  induction a as [|x a IH]; [reflexivity|]. by rewrite append_cons, IH.
Qed.

Lemma append_eq_nil (a b : string) : a +:+ b = "" -> a = "" /\ b = "".
Proof. destruct a; [done|]. rewrite append_cons. discriminate. Qed.

Lemma no_sep_append a b : no_sep (a +:+ b) = no_sep a && no_sep b.
Proof.
  induction a as [|x a IH]; [reflexivity|].
  rewrite append_cons; simpl. by rewrite IH, andb_assoc.
Qed.

Lemma elements_not_nil s : elements s <> [].
Proof.
  destruct s as [|c s]; simpl; [done|].
  destruct (IsPathSeparator c); [done|]. by destruct (elements s).
Qed.

Lemma elements_app_sep a b :
  elements (a +:+ String Separator b) = elements a ++ elements b.
Proof.
  induction a as [|c a IH].
  - reflexivity.
  - rewrite append_cons; simpl.
    rewrite IH. destruct (IsPathSeparator c); [reflexivity|].
    pose proof (elements_not_nil a). by destruct (elements a).
Qed.

Lemma elements_no_sep s : Forall (fun e => no_sep e = true) (elements s).
Proof.
  induction s as [|c s IH]; simpl.
  - by repeat constructor.
  - destruct (IsPathSeparator c) eqn:E.
    + by constructor.
    + destruct (elements s) as [|e es]; inversion IH; subst;
        constructor; simpl; try done.
      * by rewrite E.
      * by rewrite E; simpl.
Qed.

Lemma elements_single e : no_sep e = true -> elements e = [e].
Proof.
  induction e as [|c e IH]; simpl; [done|].
  intros [C H]%andb_prop. apply negb_true_iff in C. rewrite C, (IH H).
  reflexivity.
Qed.

Lemma Join_cons x y l :
  GoStrings.Join (x :: y :: l) "/"
  = x +:+ String Separator (GoStrings.Join (y :: l) "/").
Proof. reflexivity. Qed.

Lemma elements_Join l :
  l <> [] -> Forall (fun e => no_sep e = true) l ->
  elements (GoStrings.Join l "/") = l.
Proof.
  induction l as [|x l IH]; [done|]. intros _ H. inversion H; subst.
  destruct l as [|y l].
  - by apply elements_single.
  - rewrite Join_cons, elements_app_sep, elements_single, IH; done.
Qed.

Lemma dotdot_element : element "..".
Proof. by repeat split. Qed.

Lemma valid_out_nil r : valid_out r [].
Proof. exists O, []. by repeat split. Qed.

Lemma valid_out_elements r out :
  valid_out r out -> Forall element out.
Proof.
  intros (n & tops & -> & T & _). apply Forall_app. split.
  - eapply Forall_impl; [exact T|]. by intros ? [].
  - clear. induction n; simpl; constructor; auto using dotdot_element.
Qed.

Lemma clean_step_empty r out : clean_step r out "" = out.
Proof. reflexivity. Qed.

Lemma clean_step_dot r out : clean_step r out "." = out.
Proof. reflexivity. Qed.

Lemma clean_step_normal r out e : normal e -> clean_step r out e = e :: out.
Proof.
  intros [(E1 & E2 & _) E3]. unfold clean_step.
  apply String.eqb_neq in E1, E2, E3. by rewrite E1, E2, E3.
Qed.

Lemma clean_step_valid r out e :
  no_sep e = true -> valid_out r out -> valid_out r (clean_step r out e).
Proof.
  intros N (n & tops & -> & T & R). unfold clean_step.
  destruct (String.eqb_spec e ""); [by exists n, tops|].
  destruct (String.eqb_spec e "."); [by exists n, tops|].
  destruct (String.eqb_spec e "..") as [->|D].
  - destruct tops as [|t tops]; simpl.
    + destruct n as [|n]; simpl.
      * destruct r; [by exists O, []|]. exists 1%nat, []. by repeat split.
      * destruct r; [by exists (S n), []|].
        exists (S (S n)), []. by repeat split.
    + inversion T as [|? ? [_ Ht] T']; subst.
      apply String.eqb_neq in Ht. rewrite Ht. by exists n, tops.
  - exists n, (e :: tops). repeat split; try done. by constructor.
Qed.

Lemma fold_clean_valid r es : forall out,
  Forall (fun e => no_sep e = true) es -> valid_out r out ->
  valid_out r (fold_left (clean_step r) es out).
Proof.
  induction es as [|e es IH]; intros out F V; simpl; [done|].
  inversion F; subst. apply IH; [done|]. by apply clean_step_valid.
Qed.

Lemma fold_clean_normals r l : forall out,
  Forall normal l -> fold_left (clean_step r) l out = rev l ++ out.
Proof.
  induction l as [|e l IH]; intros out F; simpl; [done|].
  inversion F; subst. rewrite clean_step_normal, IH by done.
  by rewrite <- app_assoc.
Qed.

Lemma fold_clean_dotdots n : forall m,
  fold_left (clean_step false) (repeat ".." n) (repeat ".." m)
  = repeat ".." (n + m).
Proof.
  induction n as [|n IH]; intros m; simpl; [done|].
  replace (clean_step false (repeat ".." m) "..") with (repeat ".." (S m)).
  - rewrite IH. by replace (n + S m)%nat with (S (n + m)) by lia.
  - unfold clean_step; simpl. by destruct m.
Qed.

(** Running the loop over a buffer it wrote reproduces the buffer. *)
Lemma fold_clean_rev r out :
  valid_out r out -> fold_left (clean_step r) (rev out) [] = out.
Proof.
  intros (n & tops & -> & T & R).
  rewrite rev_app_distr, rev_repeat, fold_left_app.
  assert (fold_left (clean_step r) (repeat ".." n) [] = repeat ".." n) as ->.
  { destruct r.
    - by rewrite (R eq_refl).
    - change (@nil string) with (repeat ".." O) at 1.
      rewrite (fold_clean_dotdots n O). f_equal. lia. }
  rewrite fold_clean_normals, rev_involutive; [done|].
  by apply Forall_rev.
Qed.

Lemma element_head e :
  element e -> exists c e', e = String c e' /\ IsPathSeparator c = false.
Proof.
  intros (E & _ & N). destruct e as [|c e']; [done|]. simpl in N.
  apply andb_prop in N as [C _]. apply negb_true_iff in C. eauto.
Qed.

Lemma Join_head x l :
  exists tail, GoStrings.Join (x :: l) "/" = x +:+ tail.
Proof.
  destruct l as [|y l].
  - exists "". by rewrite append_nil_r.
  - eexists. apply Join_cons.
Qed.

Lemma rooted_Join l :
  l <> [] -> Forall element l ->
  rooted (GoStrings.Join l "/") = false /\ GoStrings.Join l "/" <> "".
Proof.
  destruct l as [|x l]; [done|]. intros _ F. inversion F; subst.
  destruct (element_head x) as (c & e' & -> & C); [done|].
  destruct (Join_head (String c e') l) as [tail ->].
  rewrite append_cons. by split.
Qed.

Lemma render_not_empty r l : Forall element l -> render r l <> "".
Proof.
  intros F. unfold render. destruct r; [done|].
  destruct l as [|x l]; [done|]. by apply rooted_Join.
Qed.

Lemma rooted_render r l : Forall element l -> rooted (render r l) = r.
Proof.
  intros F. unfold render. destruct r; [done|].
  destruct l as [|x l]; [done|]. by apply rooted_Join.
Qed.

Lemma Forall_element_no_sep l :
  Forall element l -> Forall (fun e => no_sep e = true) l.
Proof. intros F. eapply Forall_impl; [exact F|]. by intros ? (_ & _ & ?). Qed.

(** The elements of a rendered path, up to the empty and [.] elements
    the loop skips. *)
Lemma elements_render r l :
  Forall element l ->
  exists skipped,
    elements (render r l) = skipped ++ l
    /\ Forall (fun e => e = "" \/ e = ".") skipped
    /\ (forall tail, tail <> [] ->
          elements (render r l) ++ tail = skipped ++ l ++ tail)
    /\ (l <> [] -> skipped = if r then [""] else []).
Proof.
  intros F. unfold render. destruct l as [|x l].
  - destruct r.
    + exists [""; ""]. repeat split; try done.
      repeat (constructor; [first [by left | by right]|]). constructor.
    + exists ["."]. repeat split; try done.
      repeat (constructor; [first [by left | by right]|]). constructor.
  - assert (E : elements (GoStrings.Join (x :: l) "/") = x :: l)
      by (apply elements_Join; [done|by apply Forall_element_no_sep]).
    destruct r.
    + exists [""]. change ("/" +:+ ?t) with (String Separator t).
      cbn [elements]. rewrite E.
      change (IsPathSeparator Separator) with true; cbv iota.
      repeat split; try done.
      repeat (constructor; [first [by left | by right]|]). constructor.
    + exists []. rewrite E. by repeat split.
Qed.

Lemma fold_clean_skipped r skipped : forall out,
  Forall (fun e => e = "" \/ e = ".") skipped ->
  fold_left (clean_step r) skipped out = out.
Proof.
  induction skipped as [|e l IH]; intros out F; [done|].
  inversion F as [|? ? [-> | ->] F']; subst; simpl; by apply IH.
Qed.

Lemma fold_clean_render r out :
  valid_out r out ->
  fold_left (clean_step r) (elements (render r (rev out))) [] = out.
Proof.
  intros V.
  destruct (elements_render r (rev out)) as (sk & E & Sk & _).
  { apply Forall_rev. by eapply valid_out_elements. }
  rewrite E, fold_left_app, (fold_clean_skipped r sk [] Sk).
  by apply fold_clean_rev.
Qed.

(** [Clean] returns a rendered, valid buffer. *)
Lemma Clean_shape s :
  exists out, Clean s = render (rooted s) (rev out) /\ valid_out (rooted s) out.
Proof.
  unfold Clean. destruct (String.eqb_spec s "") as [->|N].
  - exists []. split; [done|]. apply valid_out_nil.
  - eexists. split; [reflexivity|].
    apply fold_clean_valid; [apply elements_no_sep|apply valid_out_nil].
Qed.

Lemma Clean_not_empty s : Clean s <> "".
Proof.
  destruct (Clean_shape s) as (out & -> & V).
  apply render_not_empty, Forall_rev. by eapply valid_out_elements.
Qed.

(** [Clean] is idempotent. *)
Lemma Clean_render r out :
  valid_out r out -> Clean (render r (rev out)) = render r (rev out).
Proof.
  intros V.
  assert (F : Forall element (rev out))
    by (apply Forall_rev; by eapply valid_out_elements).
  unfold Clean. pose proof (render_not_empty r _ F) as N.
  apply String.eqb_neq in N. rewrite N, rooted_render by done.
  by rewrite fold_clean_render.
Qed.

(** Cleaning [a + "/" + b] runs the loop over [b] from the buffer
    left by [a]. *)
Lemma Clean_app_sep a b :
  a <> "" ->
  Clean (a +:+ "/" +:+ b)
  = render (rooted a)
      (rev (fold_left (clean_step (rooted a)) (elements b)
              (fold_left (clean_step (rooted a)) (elements a) []))).
Proof.
  intros N. unfold Clean.
  destruct (String.eqb_spec (a +:+ "/" +:+ b) "") as [E|_].
  { by apply append_eq_nil in E as [? _]. }
  change ("/" +:+ b) with (String Separator b).
  rewrite elements_app_sep, fold_left_app.
  destruct a as [|c a]; [done|]. reflexivity.
Qed.

(** *** A trailing separator *)

Lemma HasSuffix_sep_cons c s :
  s <> "" ->
  GoStrings.HasSuffix (String c s) "/" = GoStrings.HasSuffix s "/".
Proof.
  destruct s as [|c' s]; [done|]. intros _.
  unfold GoStrings.HasSuffix, GoStrings.slice. simpl.
  by replace (length s - 0)%nat with (length s) by lia.
Qed.

Lemma HasSuffix_sep_spec s :
  GoStrings.HasSuffix s "/" = true <-> exists pre, s = pre +:+ "/".
Proof.
  induction s as [|c s IH].
  - split; [done|]. intros [pre E]. symmetry in E.
    by apply append_eq_nil in E as [_ ?].
  - destruct (String.eqb_spec s "") as [->|N].
    + unfold GoStrings.HasSuffix, GoStrings.slice; simpl.
      destruct (Ascii.eqb_spec c "/") as [->|C]; split; try done.
      * intros _. by exists "".
      * intros [[|c' pre] E].
        -- rewrite append_nil_l in E. by injection E.
        -- rewrite append_cons in E. injection E as _ E.
           symmetry in E. by apply append_eq_nil in E as [_ ?].
    + rewrite HasSuffix_sep_cons, IH by done. split.
      * intros [pre ->]. exists (String c pre). by rewrite append_cons.
      * intros [[|c' pre] E].
        -- rewrite append_nil_l in E. injection E as _ E. done.
        -- rewrite append_cons in E. injection E as _ E. eauto.
Qed.

Lemma HasSuffix_sep_elements s :
  GoStrings.HasSuffix s "/" = true -> last (elements s) = Some "".
Proof.
  intros [pre ->]%HasSuffix_sep_spec.
  change (pre +:+ "/") with (pre +:+ String Separator "").
  rewrite elements_app_sep. simpl. by rewrite last_snoc.
Qed.

(** A rendered buffer ends in a separator only when it is ["/"]. *)
Lemma HasSuffix_sep_render r l :
  Forall element l ->
  GoStrings.HasSuffix (render r l) "/" = true -> render r l = "/".
Proof.
  intros F H. apply HasSuffix_sep_elements in H.
  destruct (elements_render r l F) as (sk & E & _ & _ & Sk).
  destruct l as [|x l _] using rev_ind.
  - destruct r; [done|]. by vm_compute in H.
  - rewrite E, app_assoc, last_snoc in H. injection H as ->.
    apply Forall_app in F as [_ F]. by inversion F as [|? ? [? _]].
Qed.

Lemma trim_render r l :
  Forall element l ->
  (1 <? String.length (render r l))%nat
  && GoStrings.HasSuffix (render r l) "/" = false.
Proof.
  intros F. destruct (GoStrings.HasSuffix (render r l) "/") eqn:H.
  - by rewrite (HasSuffix_sep_render r l F H).
  - apply andb_false_r.
Qed.

Lemma HasSuffix_sep_snoc p : GoStrings.HasSuffix (p +:+ "/") "/" = true.
Proof. apply HasSuffix_sep_spec. by exists p. Qed.

(** *** The request path and the three candidates *)

Lemma valid_out_rooted out :
  valid_out true out -> Forall normal out.
Proof.
  intros (n & tops & -> & T & R). rewrite (R eq_refl); simpl.
  by rewrite app_nil_r.
Qed.

Lemma index_html_normal : normal "index.html".
Proof. by repeat split. Qed.

Lemma valid_out_push r out e :
  valid_out r out -> normal e -> valid_out r (e :: out).
Proof.
  intros (n & tops & -> & T & R) N. exists n, (e :: tops).
  repeat split; try done. by constructor.
Qed.

(** The path the handler works with is a rendered valid buffer: the
    slash-stripping branch never fires on a cleaned path. *)
Lemma request_path_shape raw :
  exists out,
    request_path raw = render (rooted raw) (rev out)
    /\ valid_out (rooted raw) out
    /\ (rooted raw = true -> out <> []).
Proof.
  unfold request_path.
  destruct (Clean_shape raw) as (out & E & V).
  assert (F : Forall element (rev out))
    by (apply Forall_rev; by eapply valid_out_elements).
  destruct (String.eqb_spec (Clean raw) "/") as [R|R].
  - assert (rooted raw = true) as Hr.
    { rewrite <- (rooted_render (rooted raw) (rev out) F), <- E, R. done. }
    exists ["index.html"]. rewrite Hr. repeat split; try done.
    apply valid_out_push; [apply valid_out_nil|apply index_html_normal].
  - rewrite E, trim_render by done. exists out. repeat split; try done.
    intros Hr ->. rewrite Hr in E. by apply R.
Qed.

Lemma request_path_clean raw :
  request_path raw
  = if String.eqb (Clean raw) "/" then "/index.html" else Clean raw.
Proof.
  unfold request_path.
  destruct (String.eqb_spec (Clean raw) "/") as [R|R]; [done|].
  destruct (Clean_shape raw) as (out & E & V).
  rewrite E, trim_render; [done|].
  apply Forall_rev. by eapply valid_out_elements.
Qed.

Lemma Join_pair a b :
  a <> "" -> GoFilepath.Join [a; b] = Clean (a +:+ "/" +:+ b).
Proof.
  intros N. unfold GoFilepath.Join. apply String.eqb_neq in N.
  by rewrite N.
Qed.

(** Candidate A is a rendered valid buffer. *)
Lemma candidate_A_shape c raw :
  exists r out,
    candidate_A c raw = render r (rev out) /\ valid_out r out.
Proof.
  unfold candidate_A.
  destruct (request_path_shape raw) as (out & E & V & _).
  destruct (String.eqb_spec (RootDir c) "") as [R|R].
  - exists (rooted raw), out. split; [|done].
    unfold GoFilepath.Join. rewrite R; simpl.
    assert (N : request_path raw <> "").
    { rewrite E. apply render_not_empty, Forall_rev.
      by eapply valid_out_elements. }
    apply String.eqb_neq in N. rewrite N.
    change (GoStrings.Join [request_path raw] "/") with (request_path raw).
    rewrite E. by apply Clean_render.
  - rewrite Join_pair by done. eexists. apply Clean_shape.
Qed.

(** Joining a real element onto a rendered buffer appends it. *)
Lemma Join_render_normal r out e :
  valid_out r out -> normal e ->
  GoFilepath.Join [render r (rev out); e] = render r (rev out ++ [e]).
Proof.
  intros V N.
  assert (F : Forall element (rev out))
    by (apply Forall_rev; by eapply valid_out_elements).
  rewrite Join_pair by (by apply render_not_empty).
  rewrite Clean_app_sep by (by apply render_not_empty).
  rewrite rooted_render, fold_clean_render by done.
  rewrite elements_single by (by destruct N as [(_ & _ & ?) _]).
  simpl. by rewrite clean_step_normal.
Qed.

Lemma Join_snoc_append l e x :
  GoStrings.Join (l ++ [e]) "/" +:+ x = GoStrings.Join (l ++ [e +:+ x]) "/".
Proof.
  induction l as [|y l IH]; [done|].
  destruct l as [|z l]; simpl app in *.
  - rewrite !Join_cons. change (GoStrings.Join [?a] "/") with a.
    by rewrite append_assoc, append_cons.
  - rewrite (Join_cons y z), (Join_cons y z), append_assoc, append_cons.
    by rewrite IH.
Qed.

(** Appending to a rendered path appends to its last element. *)
Lemma render_snoc_append r l e x :
  render r (l ++ [e]) +:+ x = render r (l ++ [e +:+ x]).
Proof.
  unfold render. destruct r.
  - by rewrite append_assoc, Join_snoc_append.
  - destruct l; simpl app; [done|]. apply (Join_snoc_append (_ :: _)).
Qed.

Lemma element_append e x :
  element e -> no_sep x = true -> x <> "" -> element (e +:+ x) /\ e +:+ x <> "..".
Proof.
  intros (E1 & E2 & E3) N X.
  destruct e as [|c e]; [done|]. destruct x as [|d x]; [done|].
  repeat split.
  - by rewrite append_cons.
  - rewrite append_cons. intros [= -> H]. by apply append_eq_nil in H as [_ ?].
  - by rewrite no_sep_append, E3, N.
  - rewrite append_cons. intros [= -> H].
    destruct e as [|c' e].
    + rewrite append_nil_l in H. injection H as -> ->. by vm_compute in E2.
    + rewrite append_cons in H. injection H as _ H.
      by apply append_eq_nil in H as [_ ?].
Qed.

End PathFacts.

(* ------------------------------------------------------------------ *)
(** ** Lexical containment in the root *)
(* ------------------------------------------------------------------ *)

Section Containment.
Import GoFilepath.

Lemma drop_prefix_app pre rest : drop_prefix pre (pre ++ rest) = Some rest.
Proof.
  induction pre as [|p pre IH]; simpl; [done|].
  by rewrite String.eqb_refl.
Qed.

Lemma filter_elements l :
  Forall element l ->
  List.filter (fun e => negb (String.eqb e "") && negb (String.eqb e ".")) l
  = l.
Proof.
  induction 1 as [|e l (E1 & E2 & _) F IH]; simpl; [done|].
  apply String.eqb_neq in E1, E2. by rewrite E1, E2, IH.
Qed.

Lemma filter_skipped l :
  Forall (fun e => e = "" \/ e = ".") l ->
  List.filter (fun e => negb (String.eqb e "") && negb (String.eqb e ".")) l
  = [].
Proof. induction 1 as [|e l [-> | ->] F IH]; simpl; done. Qed.

Lemma segs_render r l : Forall element l -> segs (render r l) = l.
Proof.
  intros F. unfold segs.
  destruct (elements_render r l F) as (sk & -> & Sk & _).
  by rewrite List.filter_app, filter_skipped, filter_elements.
Qed.

Lemma forallb_normal l :
  Forall normal l -> forallb (fun e => negb (String.eqb e "..")) l = true.
Proof.
  induction 1 as [|e l [_ N] F IH]; simpl; [done|].
  apply String.eqb_neq in N. by rewrite N.
Qed.

(** A rendered buffer that extends the cleaned root by real elements
    lies within the root. *)
Lemma within_render root R cs :
  Clean root = render (rooted root) (rev R) ->
  valid_out (rooted root) R -> Forall normal cs ->
  within root (render (rooted root) (rev R ++ cs)) = true.
Proof.
  intros C V N.
  assert (FR : Forall element (rev R))
    by (apply Forall_rev; by eapply valid_out_elements).
  assert (FA : Forall element (rev R ++ cs)).
  { apply Forall_app. split; [done|].
    eapply Forall_impl; [exact N|]. by intros ? []. }
  unfold within. cbv zeta.
  rewrite C, !rooted_render, !segs_render, drop_prefix_app by done.
  rewrite forallb_normal by done. by destruct (rooted root).
Qed.

Lemma html_suffix_normal e : element e -> normal (e +:+ ".html").
Proof. intros E. by apply element_append. Qed.

(** The three candidates of a rooted request under a non-empty root. *)
Lemma candidates_under_root c raw :
  RootDir c <> "" -> rooted raw = true ->
  exists R cs,
    Clean (RootDir c) = render (rooted (RootDir c)) (rev R)
    /\ valid_out (rooted (RootDir c)) R
    /\ Forall normal cs
    /\ candidate_A c raw = render (rooted (RootDir c)) (rev R ++ cs)
    /\ (exists cs', Forall normal cs'
          /\ candidate_B c raw = render (rooted (RootDir c)) (rev R ++ cs'))
    /\ candidate_C c raw
       = render (rooted (RootDir c)) (rev R ++ cs ++ ["index.html"]).
Proof.
  intros Root Hr.
  destruct (request_path_shape raw) as (out & E & V & NE).
  rewrite Hr in E, V. specialize (NE Hr).
  pose proof (valid_out_rooted out V) as N.
  set (rr := rooted (RootDir c)).
  set (R := fold_left (clean_step rr) (elements (RootDir c)) []).
  assert (VR : valid_out rr R)
    by (apply fold_clean_valid; [apply elements_no_sep|apply valid_out_nil]).
  assert (A : candidate_A c raw = render rr (rev R ++ rev out)).
  { unfold candidate_A. rewrite Join_pair, Clean_app_sep by done.
    fold rr R. rewrite E.
    destruct (elements_render true (rev out)) as (sk & -> & Sk & _).
    { apply Forall_rev. eapply Forall_impl; [exact N|]. by intros ? []. }
    rewrite fold_left_app, (fold_clean_skipped rr sk R Sk).
    rewrite fold_clean_normals by (by apply Forall_rev).
    by rewrite rev_app_distr, rev_involutive. }
  exists R, (rev out). repeat split; try done.
  - unfold Clean. apply String.eqb_neq in Root. by rewrite Root.
  - by apply Forall_rev.
  - destruct out as [|e out]; [done|]. inversion N as [|? ? Ne No]; subst.
    exists (rev out ++ [e +:+ ".html"]). split.
    + apply Forall_app. split; [by apply Forall_rev|].
      constructor; [|done]. apply html_suffix_normal. by destruct Ne.
    + unfold candidate_B. rewrite A. simpl rev.
      by rewrite !app_assoc, render_snoc_append.
  - unfold candidate_C. rewrite A.
    replace (rev R ++ rev out) with (rev (out ++ R))
      by (by rewrite rev_app_distr).
    rewrite Join_render_normal.
    + by rewrite rev_app_distr, app_assoc.
    + destruct VR as (n & tops & -> & T & Rn). exists n, (out ++ tops).
      repeat split; try done.
      * by rewrite app_assoc.
      * by apply Forall_app.
    + apply index_html_normal.
Qed.

(** Candidate C is neither candidate A nor candidate B. *)
Lemma candidate_C_fresh c raw :
  candidate_C c raw <> candidate_A c raw
  /\ candidate_C c raw <> candidate_B c raw.
Proof.
  unfold candidate_C, candidate_B.
  destruct (candidate_A_shape c raw) as (r & out & -> & V).
  assert (F : Forall element (rev out))
    by (apply Forall_rev; by eapply valid_out_elements).
  assert (FC : Forall element (rev out ++ ["index.html"])).
  { apply Forall_app. split; [done|]. constructor; [|done].
    apply index_html_normal. }
  rewrite Join_render_normal by (try done; apply index_html_normal).
  split; intros E; apply (f_equal segs) in E.
  - rewrite !segs_render in E by done.
    apply (f_equal (@List.length string)) in E.
    rewrite length_app in E. simpl in E. lia.
  - destruct out as [|e out].
    + destruct r; vm_compute in E; discriminate.
    + simpl rev in *. rewrite render_snoc_append in E.
      rewrite !segs_render in E.
      * apply (f_equal (@List.length string)) in E.
        rewrite !length_app in E. simpl in E. lia.
      * apply Forall_app in F as [F1 F2]. apply Forall_app. split; [done|].
        constructor; [|done]. inversion F2; subst.
        by apply html_suffix_normal.
      * done.
Qed.

Lemma Clean_trailing_sep p : p <> "" -> Clean (p +:+ "/") = Clean p.
Proof.
  intros N. unfold Clean.
  destruct (String.eqb_spec (p +:+ "/") "") as [E|_].
  { by apply append_eq_nil in E as [? _]. }
  apply String.eqb_neq in N. rewrite N.
  change (p +:+ "/") with (p +:+ String Separator "").
  rewrite elements_app_sep, fold_left_app.
  destruct p as [|c p]; [done|]. reflexivity.
Qed.

End Containment.

(* ------------------------------------------------------------------ *)
(** ** [ToLower] folds the case of ASCII letters *)
(* ------------------------------------------------------------------ *)

Section CaseFolding.
Import GoStrings.

(** [lower_byte] leaves the bytes that start or continue the two special
    runes alone. *)
Lemma lower_byte_special c :
  (nat_of_ascii (lower_byte c) =? 196)%nat = (nat_of_ascii c =? 196)%nat
  /\ (nat_of_ascii (lower_byte c) =? 176)%nat = (nat_of_ascii c =? 176)%nat
  /\ (nat_of_ascii (lower_byte c) =? 226)%nat = (nat_of_ascii c =? 226)%nat
  /\ (nat_of_ascii (lower_byte c) =? 132)%nat = (nat_of_ascii c =? 132)%nat
  /\ (nat_of_ascii (lower_byte c) =? 170)%nat = (nat_of_ascii c =? 170)%nat.
Proof. destruct c as [[] [] [] [] [] [] [] []]; vm_compute; done. Qed.

Lemma same_case_tests c d k :
  lower_byte c = lower_byte d ->
  In k [196; 176; 226; 132; 170]%nat ->
  (nat_of_ascii c =? k)%nat = (nat_of_ascii d =? k)%nat.
Proof.
  intros E I.
  destruct (lower_byte_special c) as (C1 & C2 & C3 & C4 & C5).
  destruct (lower_byte_special d) as (D1 & D2 & D3 & D4 & D5).
  rewrite E in C1, C2, C3, C4, C5.
  simpl in I. destruct I as [<-|[<-|[<-|[<-|[<-|[]]]]]]; congruence.
Qed.

Lemma ToLower_unfold s :
  ToLower s
  = match s with
    | EmptyString => EmptyString
    | String c1 r1 =>
        match r1 with
        | String c2 r2 =>
            if ((nat_of_ascii c1 =? 196) && (nat_of_ascii c2 =? 176))%nat
            then String "i" (ToLower r2)
            else
              match r2 with
              | String c3 r3 =>
                  if ((nat_of_ascii c1 =? 226) && (nat_of_ascii c2 =? 132)
                      && (nat_of_ascii c3 =? 170))%nat
                  then String "k" (ToLower r3)
                  else String (lower_byte c1) (ToLower r1)
              | EmptyString => String (lower_byte c1) (ToLower r1)
              end
        | EmptyString => String (lower_byte c1) EmptyString
        end
    end.
Proof. destruct s; reflexivity. Qed.

Lemma same_but_case_ToLower n : forall a b,
  (String.length a <= n)%nat -> same_but_case a b = true ->
  ToLower a = ToLower b.
Proof.
  induction n as [|n IH]; intros a b L S.
  - destruct a; [|simpl in L; lia]. by destruct b.
  - destruct a as [|c1 a1]; [by destruct b|].
    destruct b as [|d1 b1]; [done|]. simpl in L, S.
    apply andb_prop in S as [E1%Ascii.eqb_eq S1].
    rewrite (ToLower_unfold (String c1 a1)), (ToLower_unfold (String d1 b1)).
    destruct a1 as [|c2 a2]; destruct b1 as [|d2 b2]; try done.
    { by rewrite E1. }
    pose proof S1 as S1'. simpl in S1, L.
    apply andb_prop in S1 as [E2%Ascii.eqb_eq S2].
    rewrite (same_case_tests c1 d1 196 E1), (same_case_tests c2 d2 176 E2)
      by (simpl; tauto).
    destruct ((nat_of_ascii d1 =? 196) && (nat_of_ascii d2 =? 176))%nat.
    { f_equal. apply IH; [lia|done]. }
    assert (T1 : ToLower (String c2 a2) = ToLower (String d2 b2))
      by (apply IH; [simpl; lia|done]).
    destruct a2 as [|c3 a3]; destruct b2 as [|d3 b3]; try done.
    { by rewrite E1, T1. }
    pose proof S2 as S2'. simpl in S2, L.
    apply andb_prop in S2 as [E3%Ascii.eqb_eq S3].
    rewrite (same_case_tests c1 d1 226 E1), (same_case_tests c2 d2 132 E2),
      (same_case_tests c3 d3 170 E3) by (simpl; tauto).
    destruct ((nat_of_ascii d1 =? 226) && (nat_of_ascii d2 =? 132)
              && (nat_of_ascii d3 =? 170))%nat.
    + f_equal. apply IH; [lia|done].
    + by rewrite E1, T1.
Qed.

Lemma same_but_case_getContentType a b :
  same_but_case a b = true -> getContentType a = getContentType b.
Proof.
  intros S. unfold getContentType.
  by rewrite (same_but_case_ToLower (String.length a) a b).
Qed.

End CaseFolding.

(* ------------------------------------------------------------------ *)
(** ** Responses and walks *)
(* ------------------------------------------------------------------ *)

Lemma file_response_status p file :
  GoHttp.StatusCode (file_response p file) = 200
  /\ GoHttp.body (file_response p file) = GoOs.copied file
  /\ GoHttp.Header (file_response p file) !! "Content-Type" = content_type_of p.
Proof.
  unfold file_response. destruct (content_type_of p); repeat split.
Qed.

Lemma not_found_response_status c path :
  GoHttp.StatusCode (not_found_response c path) = 404
  /\ GoHttp.body (not_found_response c path)
     = match NotFoundHandler c with
       | Some handler => handler path
       | None => "404 page not found" +:+ String (ascii_of_nat 10) ""
       end.
Proof.
  unfold not_found_response. destruct (NotFoundHandler c); repeat split.
Qed.

Lemma tried_all ok cands : find ok cands = None -> tried ok cands = cands.
Proof.
  induction cands as [|p rest IH]; simpl; [done|].
  destruct (ok p); [done|]. intros H. by rewrite IH.
Qed.

Lemma tried_last ok cands p :
  find ok cands = Some p -> last (tried ok cands) = Some p /\ ok p = true.
Proof.
  induction cands as [|q rest IH]; simpl; [done|].
  destruct (ok q) eqn:E.
  - by intros [= ->].
  - intros H. destruct (IH H) as [L O]. split; [|done].
    destruct (tried ok rest); [done|]. exact L.
Qed.

Lemma tried_hit ok cands p :
  In p (tried ok cands) -> ok p = true -> find ok cands = Some p.
Proof.
  induction cands as [|q rest IH]; simpl; [done|].
  destruct (ok q) eqn:E.
  - by intros [->|[]] _.
  - intros [->|H] O; [congruence|]. by apply IH.
Qed.

Lemma tried_incl ok cands p : In p (tried ok cands) -> In p cands.
Proof.
  induction cands as [|q rest IH]; simpl; [done|].
  destruct (ok q); simpl; intros [->|H]; auto. done.
Qed.

(** The outcome and the probes of every run. *)
Lemma run_outcome s fs raw :
  outcome (run s fs raw) = resolve_in (servable fs) (candidates (config s) raw)
  /\ probes (run s fs raw) = tried (servable fs) (candidates (config s) raw).
Proof.
  unfold outcome, resolve_in.
  destruct (find (servable fs) (candidates (config s) raw)) as [p|] eqn:F.
  - destruct (run_found s fs raw p F) as (file & O & R & P & S).
    rewrite S, R, P. split; [|done]. f_equal. apply file_response_status.
  - destruct (run_not_found s fs raw F) as (R & P & S).
    rewrite S, P. split; [done|]. symmetry. by apply tried_all.
Qed.

Lemma outcome_NotFound s fs raw :
  outcome (run s fs raw) = NotFound <->
  find (servable fs) (candidates (config s) raw) = None.
Proof.
  rewrite (proj1 (run_outcome s fs raw)). unfold resolve_in.
  destruct (find _ _); split; congruence.
Qed.

(* ------------------------------------------------------------------ *)
(** ** The cases of [server_test.go] *)
(* ------------------------------------------------------------------ *)

(** [TestServer]: default settings. *)
Example TestServer_cases :
  map (answer (NewServer "/site") test_fs)
    ["/"; "/about"; "/about/"; "/about.html"; "/nonexistent"]
  = [ (200, "<html><body>Index Page</body></html>");
      (200, "<html><body>About Page</body></html>");
      (200, "<html><body>About Page</body></html>");
      (200, "<html><body>About Page</body></html>");
      (404, "404 page not found" +:+ String (ascii_of_nat 10) "") ].
Proof. vm_compute. reflexivity. Qed.

(** [TestServerWithCustomConfig]: no extension fallback, no logging, a
    custom not-found handler. *)
Example TestServerWithCustomConfig_cases :
  map (answer custom_server test_fs) ["/about"; "/about.html"; "/nonexistent"]
  = [ (404, "Custom 404: /about not found");
      (200, "<html><body>About Page</body></html>");
      (404, "Custom 404: /nonexistent not found") ].
Proof. vm_compute. reflexivity. Qed.

(** [filepath.Clean], [filepath.Join] and [filepath.Ext] on the inputs of
    Go's own tables. *)
Example Clean_cases :
  map GoFilepath.Clean
    [""; "abc"; "abc/def"; "a/b/c"; "."; ".."; "../.."; "../../abc"; "/abc";
     "/"; "abc/"; "abc/def/"; "a/b/c/"; "./"; "../"; "../../"; "/abc/";
     "abc//def//ghi"; "abc//"; "abc/./def"; "/./abc/def"; "abc/.";
     "abc/def/ghi/../jkl"; "abc/def/../ghi/../jkl"; "abc/def/.."; "abc/def/../..";
     "/abc/def/../.."; "abc/def/../../.."; "/abc/def/../../..";
     "abc/def/../../../ghi/jkl/../../../mno"; "/../abc";
     "abc/./../def"; "abc//./../def"; "abc/../../././../def"]
  = [".";  "abc"; "abc/def"; "a/b/c"; "."; ".."; "../.."; "../../abc"; "/abc";
     "/"; "abc"; "abc/def"; "a/b/c"; "."; ".."; "../.."; "/abc";
     "abc/def/ghi"; "abc"; "abc/def"; "/abc/def"; "abc";
     "abc/def/jkl"; "abc/jkl"; "abc"; ".";
     "/"; ".."; "/";
     "../../mno"; "/abc";
     "def"; "def"; "../../def"].
Proof. vm_compute. reflexivity. Qed.

Example Join_cases :
  map GoFilepath.Join
    [ []; [""]; ["a"]; ["a"; "b"]; ["a"; ""]; [""; "b"]; ["/"; "a"]; ["/"; ""];
      ["a/"; "b"]; ["a/"; ""]; [""; ""]; ["./public"; "/about"] ]
  = [ ""; ""; "a"; "a/b"; "a"; "b"; "/a"; "/"; "a/b"; "a"; ""; "public/about" ].
Proof. vm_compute. reflexivity. Qed.

Example Ext_cases :
  map GoFilepath.Ext
    ["path.go"; "path.pb.go"; "a.dir/b"; "a.dir/b.go"; "a.dir/"; "/about"; "."]
  = [".go"; ".go"; ""; ".go"; ""; ""; "."].
Proof. vm_compute. reflexivity. Qed.

(* ------------------------------------------------------------------ *)
(** ** Lists of candidates *)
(* ------------------------------------------------------------------ *)

Lemma tried_through ok pre p post :
  find ok pre = None -> ok p = false ->
  tried ok (pre ++ p :: post) = pre ++ p :: tried ok post.
Proof.
  induction pre as [|q pre IH]; simpl; intros F O.
  - by rewrite O.
  - destruct (ok q); [done|]. by rewrite IH.
Qed.

Lemma find_app_hit {A} (ok : A -> bool) l l' x :
  find ok l = Some x -> find ok (l ++ l') = Some x.
Proof.
  induction l as [|y l IH]; simpl; [done|]. destruct (ok y); auto.
Qed.

Lemma find_app_miss {A} (ok : A -> bool) l l' :
  find ok l = None -> find ok (l ++ l') = find ok l'.
Proof.
  induction l as [|y l IH]; simpl; [done|]. destruct (ok y); [done|auto].
Qed.

(** A path and the same path with a slash appended give the same
    request path and the same candidates; the slash only adds the
    directory index at the end of the sequence. *)
Lemma candidates_trailing_sep c p :
  p <> "" -> GoStrings.HasSuffix p "/" = false ->
  request_path (p +:+ "/") = request_path p
  /\ candidates c (p +:+ "/") = candidates c p ++ [candidate_C c p].
Proof.
  intros N H.
  assert (R : request_path (p +:+ "/") = request_path p)
    by (unfold request_path; by rewrite Clean_trailing_sep).
  split; [done|].
  unfold candidates, candidate_C, candidate_B, candidate_A, tries_B, tries_C.
  rewrite R, H, HasSuffix_sep_snoc.
  destruct (AddHtmlExtension c && _); simpl; by rewrite ?app_nil_r.
Qed.

(* ------------------------------------------------------------------ *)
(** ** The claims *)
(* ------------------------------------------------------------------ *)

(** C1, as stated, fails: in the tree of the tests [nested] is a
    directory holding [index.html] and there is no [nested.html]; the
    request [/nested] is answered not-found, although the third candidate
    of the ungated sequence is an existing regular file. *)
Lemma C1_ungated_order_fails :
  resolve_in (is_file test_fs)
    (candidates_ungated (config (NewServer "/site")) "/nested")
  = Found "/site/nested/index.html" (Some "text/html")
  /\ outcome (run (NewServer "/site") test_fs "/nested") = NotFound.
Proof. split; vm_compute; reflexivity. Qed.

(** C1, amended: for every server, file system and raw path, the handler
    probes, in order, candidate A (root joined with the cleaned, rewritten
    and slash-stripped path), candidate B (A + ".html", only when
    AddHtmlExtension is set and the path has no extension) and candidate
    C (A joined with "index.html", only when the raw path ends in "/");
    it stops at, and serves, the first one that [Stat] reports as a
    non-directory and that [Open] opens; when there is none it answers
    with the not-found response. *)
Theorem C1_resolution_order (s : Server) (fs : GoOs.FileSystem) (raw : string) :
  outcome (run s fs raw)
  = resolve_in (servable fs) (candidates (config s) raw)
  /\ probes (run s fs raw) = tried (servable fs) (candidates (config s) raw)
  /\ match find (servable fs) (candidates (config s) raw) with
     | Some p =>
         exists file, GoOs.Open fs p = inr file
                      /\ resp (run s fs raw) = file_response p file
     | None =>
         resp (run s fs raw)
         = not_found_response (config s) (request_path raw)
     end.
Proof.
  destruct (run_outcome s fs raw) as [O P]. repeat split; try done.
  destruct (find (servable fs) (candidates (config s) raw)) as [p|] eqn:F.
  - destruct (run_found s fs raw p F) as (file & ? & ? & _). eauto.
  - by destruct (run_not_found s fs raw F).
Qed.

(** C2: whatever the configuration, the file system and the path, the
    status of the response is 200, with the bytes copied from the served
    file as body, or 404; it is never a 3xx code. *)
Theorem C2_never_redirect (s : Server) (fs : GoOs.FileSystem) (raw : string) :
  let st := GoHttp.StatusCode (resp (run s fs raw)) in
  ((st = 200
    /\ exists p file, served_file (run s fs raw) = Some p
                      /\ GoOs.Open fs p = inr file
                      /\ GoHttp.body (resp (run s fs raw)) = GoOs.copied file)
   \/ (st = 404 /\ served_file (run s fs raw) = None))
  /\ ~ (300 <= st < 400).
Proof.
  cbv zeta.
  destruct (find (servable fs) (candidates (config s) raw)) as [p|] eqn:F.
  - destruct (run_found s fs raw p F) as (file & O & R & _ & S).
    rewrite R. destruct (file_response_status p file) as (-> & B & _).
    split; [|lia]. left. split; [done|]. by exists p, file.
  - destruct (run_not_found s fs raw F) as (R & _ & S).
    rewrite R.
    destruct (not_found_response_status (config s) (request_path raw))
      as [-> _].
    split; [|lia]. by right.
Qed.

(** C3, as stated, fails in the "if" direction: [/about.html/] ends in a
    slash, yet the first candidate is served and the directory index is
    never probed. *)
Lemma C3_index_skipped_after_hit :
  GoStrings.HasSuffix "/about.html/" "/" = true
  /\ probes (run (NewServer "/site") test_fs "/about.html/")
     = ["/site/about.html"]
  /\ ~ In (candidate_C (config (NewServer "/site")) "/about.html/")
         (probes (run (NewServer "/site") test_fs "/about.html/")).
Proof.
  split; [vm_compute; reflexivity|]. split; [vm_compute; reflexivity|].
  vm_compute. intros [H|[]]. discriminate.
Qed.

(** C3, amended: the directory-index candidate is probed exactly when
    the raw (pre-normalization) path ends in "/" and neither candidate A
    nor, where it is tried, candidate B was served.  Under the root
    [/site] with the extension fallback on, whenever [nested] and
    [nested.html] cannot be served and [nested/index.html] can, [/nested/]
    is answered 200 with that file's bytes and [/nested] is answered 404;
    the tree of the tests is such a file system. *)
Theorem C3_index_only_on_raw_slash (s : Server) (fs : GoOs.FileSystem)
  (raw : string) :
  (In (candidate_C (config s) raw) (probes (run s fs raw)) <->
   GoStrings.HasSuffix raw "/" = true
   /\ servable fs (candidate_A (config s) raw) = false
   /\ (tries_B (config s) raw = true ->
       servable fs (candidate_B (config s) raw) = false))
  /\ (forall file,
        servable fs "/site/nested" = false ->
        servable fs "/site/nested.html" = false ->
        is_file fs "/site/nested/index.html" = true ->
        GoOs.Open fs "/site/nested/index.html" = inr file ->
        answer (NewServer "/site") fs "/nested/" = (200, GoOs.copied file)
        /\ outcome (run (NewServer "/site") fs "/nested/")
           = Found "/site/nested/index.html" (Some "text/html")
        /\ GoHttp.StatusCode (resp (run (NewServer "/site") fs "/nested")) = 404
        /\ outcome (run (NewServer "/site") fs "/nested") = NotFound)
  /\ answer (NewServer "/site") test_fs "/nested/"
     = (200, "<html><body>Nested Page</body></html>")
  /\ GoHttp.StatusCode (resp (run (NewServer "/site") test_fs "/nested")) = 404.
Proof.
  split; [|split; [|split; vm_compute; reflexivity]].
  - rewrite (proj2 (run_outcome s fs raw)).
    destruct (candidate_C_fresh (config s) raw) as [NA NB].
    unfold candidates. fold (tries_C raw). unfold tries_C at 2.
    destruct (servable fs (candidate_A (config s) raw)) eqn:SA;
      destruct (tries_B (config s) raw) eqn:TB;
      destruct (servable fs (candidate_B (config s) raw)) eqn:SB;
      destruct (GoStrings.HasSuffix raw "/") eqn:TC;
      unfold tries_C; rewrite ?TC; simpl; rewrite ?SA, ?SB; simpl;
      try destruct (servable fs (candidate_C (config s) raw)); simpl;
      split; try tauto; try (intros (? & ? & ?); discriminate);
      try (intros (? & ? & H); by specialize (H eq_refl));
      intuition congruence.
  - intros file SA SB IF O.
    assert (SC : servable fs "/site/nested/index.html" = true)
      by (unfold servable, opens; by rewrite IF, O).
    assert (C1 : candidates (config (NewServer "/site")) "/nested/"
                 = ["/site/nested"; "/site/nested.html";
                    "/site/nested/index.html"]) by (vm_compute; reflexivity).
    assert (C2 : candidates (config (NewServer "/site")) "/nested"
                 = ["/site/nested"; "/site/nested.html"])
      by (vm_compute; reflexivity).
    assert (F1 : find (servable fs)
                   (candidates (config (NewServer "/site")) "/nested/")
                 = Some "/site/nested/index.html")
      by (rewrite C1; simpl; by rewrite SA, SB, SC).
    assert (F2 : find (servable fs)
                   (candidates (config (NewServer "/site")) "/nested") = None)
      by (rewrite C2; simpl; by rewrite SA, SB).
    destruct (run_found _ _ _ _ F1) as (file' & O' & R1 & _ & _).
    rewrite O in O'. injection O' as <-.
    destruct (run_not_found _ _ _ F2) as (R2 & _ & _).
    unfold answer.
    rewrite !(proj1 (run_outcome _ _ _)). unfold resolve_in.
    rewrite F1, F2, R1, R2.
    destruct (file_response_status "/site/nested/index.html" file)
      as (-> & -> & _).
    repeat split.
Qed.

(** C4, as stated, fails in its second case: in the tree of the tests
    [nested/index.html] exists, [/nested/] resolves to it and [/nested]
    resolves to nothing. *)
Lemma C4_index_case_differs :
  GoStrings.HasSuffix "/nested" "/" = false
  /\ is_file test_fs "/site/nested/index.html" = true
  /\ outcome (run (NewServer "/site") test_fs "/nested") = NotFound
  /\ outcome (run (NewServer "/site") test_fs ("/nested" +:+ "/"))
     = Found "/site/nested/index.html" (Some "text/html").
Proof. repeat split; vm_compute; reflexivity. Qed.

(** C4, amended: for every non-empty path p without a trailing slash,
    under the same configuration and file system, whatever p resolves to
    as Found, p/ resolves to the same Found target; in particular both
    resolve to p.html when that is the first candidate served.  When no
    candidate of p is served and p/index.html is, p/ resolves to it and p
    resolves to NotFound. *)
Theorem C4_trailing_slash (s : Server) (fs : GoOs.FileSystem) (p : string) :
  p <> "" -> GoStrings.HasSuffix p "/" = false ->
  (forall t ct, outcome (run s fs p) = Found t ct ->
                outcome (run s fs (p +:+ "/")) = Found t ct)
  /\ (tries_B (config s) p = true ->
      servable fs (candidate_A (config s) p) = false ->
      servable fs (candidate_B (config s) p) = true ->
      outcome (run s fs p)
      = Found (candidate_B (config s) p)
          (content_type_of (candidate_B (config s) p))
      /\ outcome (run s fs (p +:+ "/")) = outcome (run s fs p))
  /\ (outcome (run s fs p) = NotFound ->
      servable fs (candidate_C (config s) p) = true ->
      outcome (run s fs (p +:+ "/"))
      = Found (candidate_C (config s) p)
          (content_type_of (candidate_C (config s) p))).
Proof.
  intros N H.
  destruct (candidates_trailing_sep (config s) p N H) as [_ C].
  rewrite !(proj1 (run_outcome s fs _)), C. unfold resolve_in.
  split; [|split].
  - intros t ct.
    destruct (find (servable fs) (candidates (config s) p)) as [q|] eqn:F;
      [|done].
    by rewrite (find_app_hit _ _ _ _ F).
  - intros TB SA SB. unfold candidates, tries_C.
    rewrite TB, H, app_nil_r. simpl. by rewrite SA, SB.
  - destruct (find (servable fs) (candidates (config s) p)) as [q|] eqn:F;
      [done|].
    intros _ Sv. rewrite (find_app_miss _ _ _ F). simpl. by rewrite Sv.
Qed.

Lemma C4_trailing_slash_witness :
  "/about" <> "" /\ GoStrings.HasSuffix "/about" "/" = false
  /\ outcome (run (NewServer "/site") test_fs "/about")
     = Found "/site/about.html" (Some "text/html")
  /\ outcome (run (NewServer "/site") test_fs ("/about" +:+ "/"))
     = outcome (run (NewServer "/site") test_fs "/about").
Proof.
  split; [discriminate|]. split; [vm_compute; reflexivity|].
  assert (N : "/about" <> "") by discriminate.
  assert (H : GoStrings.HasSuffix "/about" "/" = false)
    by (vm_compute; reflexivity).
  destruct (C4_trailing_slash (NewServer "/site") test_fs "/about" N H)
    as (_ & B & _).
  apply B; vm_compute; reflexivity.
Defined.

(** C5, as stated, fails for the empty root directory: [Join] ignores
    the empty element, the candidate is the cleaned request path itself,
    an absolute path, and the file is served. *)
Lemma C5_empty_root_escapes :
  RootDir (config rootless_server) = ""
  /\ probes (run rootless_server system_fs "/etc/passwd") = ["/etc/passwd"]
  /\ within (RootDir (config rootless_server)) "/etc/passwd" = false
  /\ outcome (run rootless_server system_fs "/etc/passwd")
     = Found "/etc/passwd" None.
Proof. repeat split; vm_compute; reflexivity. Qed.

(** C5, amended: for every non-empty root directory and every raw path
    beginning with "/", each of the candidates A, B and C, hence every
    path the handler probes and any file it serves, lies within the root:
    cleaning leaves no ".." element in the request path, so the join can
    only extend the cleaned root. *)
Theorem C5_candidates_within_root (s : Server) (fs : GoOs.FileSystem)
  (rest : string) :
  RootDir (config s) <> "" ->
  let raw := "/" +:+ rest in
  let root := RootDir (config s) in
  within root (candidate_A (config s) raw) = true
  /\ within root (candidate_B (config s) raw) = true
  /\ within root (candidate_C (config s) raw) = true
  /\ Forall (fun p => within root p = true) (probes (run s fs raw))
  /\ (forall p, served_file (run s fs raw) = Some p -> within root p = true).
Proof.
  intros Root raw root.
  destruct (candidates_under_root (config s) raw Root eq_refl)
    as (R & cs & C & V & N & A & (cs' & N' & B) & Ci).
  assert (WA : within root (candidate_A (config s) raw) = true)
    by (rewrite A; by apply within_render).
  assert (WB : within root (candidate_B (config s) raw) = true)
    by (rewrite B; by apply within_render).
  assert (WC : within root (candidate_C (config s) raw) = true).
  { rewrite Ci. apply within_render; try done.
    apply Forall_app. split; [done|]. constructor; [|done].
    apply index_html_normal. }
  assert (W : forall p, In p (candidates (config s) raw) ->
                        within root p = true).
  { unfold candidates. intros p I.
    destruct (tries_B (config s) raw); destruct (tries_C raw);
      simpl in I; intuition congruence. }
  repeat split; try done.
  - rewrite (proj2 (run_outcome s fs raw)). apply Forall_forall.
    intros p I%list_elem_of_In. apply W. by eapply tried_incl.
  - intros p Sp.
    destruct (find (servable fs) (candidates (config s) raw)) as [q|] eqn:F.
    + destruct (run_found s fs raw q F) as (_ & _ & _ & _ & Sq).
      rewrite Sq in Sp. injection Sp as ->.
      apply W. by apply find_some in F as [? _].
    + destruct (run_not_found s fs raw F) as (_ & _ & Sq). congruence.
Qed.

Lemma C5_candidates_within_root_witness :
  RootDir (config (NewServer "./public")) <> ""
  /\ probes (run (NewServer "./public") test_fs ("/" +:+ "../../etc/passwd/"))
     = ["public/etc/passwd"; "public/etc/passwd.html";
        "public/etc/passwd/index.html"]
  /\ Forall (fun p => within "./public" p = true)
       (probes (run (NewServer "./public") test_fs
                  ("/" +:+ "../../etc/passwd/"))).
Proof.
  split; [discriminate|]. split; [vm_compute; reflexivity|].
  assert (Root : RootDir (config (NewServer "./public")) <> "")
    by discriminate.
  exact (proj1 (proj2 (proj2 (proj2
    (C5_candidates_within_root (NewServer "./public") test_fs
       "../../etc/passwd/" Root))))).
Defined.

(** C6, as stated, fails in its last part: [Stat] is refused with
    "permission denied" on the first candidate, the handler goes on to
    the second one, and nothing about the refusal reaches the log of a
    server that logs. *)
Lemma C6_stat_error_not_logged :
  GoOs.Stat faulty_fs "/site/secret"
  = inl (PathError "stat" "/site/secret" EACCES)
  /\ probes (run (NewServer "/site") faulty_fs "/secret")
     = ["/site/secret"; "/site/secret.html"]
  /\ logged (run (NewServer "/site") faulty_fs "/secret")
     = ["Handling request for: /secret"; "Serving file: /site/secret.html"].
Proof. repeat split; vm_compute; reflexivity. Qed.

(** C6, amended: an attempt on a path whose [Stat] fails with any error,
    or which passes [Stat] as a non-directory and whose [Open] fails with
    any error, returns false and leaves the response untouched, exactly as
    for a missing file, and the handler goes on with the candidates after
    it.  A failure of [Open] is written to the logger (which drops it
    when logging is disabled); a failure of [Stat] leaves no line at all,
    whatever the error. *)
Theorem C6_errors_fall_through (s : Server) (fs : GoOs.FileSystem) (p : string) :
  servable fs p = false ->
  (forall w, fst (tryServeFile s fs p w) = false
             /\ resp (snd (tryServeFile s fs p w)) = resp w)
  /\ (forall w e, GoOs.Stat fs p = inl e ->
        snd (tryServeFile s fs p w) = add_calls [CallStat p] w)
  /\ (forall w info e,
        GoOs.Stat fs p = inr info -> GoOs.IsDir info = false ->
        GoOs.Open fs p = inl e ->
        snd (tryServeFile s fs p w)
        = add_log (logger s)
            ["Error opening file " +:+ p +:+ ": " +:+ Error e]
            (add_calls [CallStat p; CallOpen p] w))
  /\ (forall raw pre post,
        candidates (config s) raw = pre ++ p :: post ->
        find (servable fs) pre = None ->
        probes (run s fs raw) = pre ++ p :: tried (servable fs) post).
Proof.
  intros Sv. repeat split.
  - by apply tryServeFile_miss.
  - by apply tryServeFile_miss.
  - intros w e St. by rewrite (tryServeFile_stat_error _ _ _ _ _ St).
  - intros w info e St D O.
    by rewrite (tryServeFile_open_error _ _ _ _ _ _ St D O).
  - intros raw pre post C F.
    rewrite (proj2 (run_outcome s fs raw)), C. by apply tried_through.
Qed.

Lemma C6_errors_fall_through_witness :
  servable faulty_fs "/site/locked" = false
  /\ probes (run (NewServer "/site") faulty_fs "/locked")
     = ["/site/locked"; "/site/locked.html"].
Proof.
  split; [vm_compute; reflexivity|].
  assert (Sv : servable faulty_fs "/site/locked" = false)
    by (vm_compute; reflexivity).
  destruct (C6_errors_fall_through (NewServer "/site") faulty_fs
              "/site/locked" Sv) as (_ & _ & _ & H).
  apply (H "/locked" [] ["/site/locked.html"]); vm_compute; reflexivity.
Defined.

(** C7: when no candidate is served, the status is 404 and the body is
    exactly the handler's output on the trimmed, normalized request path
    if a handler is configured, and the standard "404 page not found"
    line otherwise. *)
Theorem C7_not_found_body (s : Server) (fs : GoOs.FileSystem) (raw : string) :
  outcome (run s fs raw) = NotFound ->
  GoHttp.StatusCode (resp (run s fs raw)) = 404
  /\ GoHttp.body (resp (run s fs raw))
     = match NotFoundHandler (config s) with
       | Some handler => handler (request_path raw)
       | None => "404 page not found" +:+ String (ascii_of_nat 10) ""
       end.
Proof.
  intros H%outcome_NotFound.
  destruct (run_not_found s fs raw H) as (-> & _).
  apply not_found_response_status.
Qed.

Lemma C7_not_found_body_witness :
  outcome (run custom_server test_fs "/nonexistent") = NotFound
  /\ GoHttp.StatusCode (resp (run custom_server test_fs "/nonexistent")) = 404
  /\ GoHttp.body (resp (run custom_server test_fs "/nonexistent"))
     = "Custom 404: /nonexistent not found".
Proof.
  split; [vm_compute; reflexivity|].
  apply (C7_not_found_body custom_server test_fs "/nonexistent").
  vm_compute; reflexivity.
Defined.

(** C8: the content type is the table entry of the lower-cased
    extension, and the empty string when the table has none, so that two
    extensions differing only in the case of their letters get the same
    type; for a served file the handler sets that entry as the
    Content-Type header, and sets no Content-Type header when the table
    has none. *)
Theorem C8_content_type_table (s : Server) (fs : GoOs.FileSystem)
  (raw ext : string) :
  getContentType ext
  = default "" (table_lookup (GoStrings.ToLower ext) content_type_table)
  /\ (forall ext', same_but_case ext ext' = true ->
                   getContentType ext' = getContentType ext)
  /\ match served_file (run s fs raw) with
     | Some p =>
         GoHttp.Header (resp (run s fs raw)) !! "Content-Type"
         = table_lookup (GoStrings.ToLower (GoFilepath.Ext p))
             content_type_table
     | None => True
     end.
Proof.
  assert (T : forall e,
    getContentType e
    = default "" (table_lookup (GoStrings.ToLower e) content_type_table)
    /\ (if String.eqb (getContentType e) "" then None
        else Some (getContentType e))
       = table_lookup (GoStrings.ToLower e) content_type_table).
  { intros e. unfold getContentType, content_type_table, table_lookup.
    repeat match goal with
           | |- context [String.eqb (GoStrings.ToLower e) ?b] =>
               destruct (String.eqb (GoStrings.ToLower e) b)
           end; split; reflexivity. }
  split; [apply T|].
  split; [intros e' E; symmetry; by apply same_but_case_getContentType|].
  destruct (find (servable fs) (candidates (config s) raw)) as [p|] eqn:F.
  - destruct (run_found s fs raw p F) as (file & _ & R & _ & ->).
    rewrite R. destruct (file_response_status p file) as (_ & _ & ->).
    apply T.
  - by destruct (run_not_found s fs raw F) as (_ & _ & ->).
Qed.

(** C9: when the raw path cleans to "/" and no candidate is served, the
    configured handler receives "/index.html": the rewrite of the root
    path comes before the not-found branch. *)
Theorem C9_root_rewritten_before_404 (s : Server) (fs : GoOs.FileSystem)
  (raw : string) (handler : string -> string) :
  GoFilepath.Clean raw = "/" ->
  NotFoundHandler (config s) = Some handler ->
  outcome (run s fs raw) = NotFound ->
  request_path raw = "/index.html"
  /\ GoHttp.StatusCode (resp (run s fs raw)) = 404
  /\ GoHttp.body (resp (run s fs raw)) = handler "/index.html".
Proof.
  intros C Hh H%outcome_NotFound.
  assert (P : request_path raw = "/index.html")
    by (rewrite request_path_clean, C; reflexivity).
  split; [done|].
  destruct (run_not_found s fs raw H) as (-> & _).
  destruct (not_found_response_status (config s) (request_path raw))
    as [-> ->].
  by rewrite Hh, P.
Qed.

Lemma C9_root_rewritten_before_404_witness :
  GoFilepath.Clean "/" = "/"
  /\ outcome (run custom_server (tree_fs ∅) "/") = NotFound
  /\ GoHttp.body (resp (run custom_server (tree_fs ∅) "/"))
     = "Custom 404: /index.html not found".
Proof.
  split; [vm_compute; reflexivity|]. split; [vm_compute; reflexivity|].
  apply (C9_root_rewritten_before_404 custom_server (tree_fs ∅) "/"
           customNotFound); vm_compute; reflexivity.
Defined.

(** C10: an attempt whose [Stat] reports a non-directory and whose [Open]
    succeeds returns true whatever [io.Copy] returns; so once a probed
    candidate has been opened it is the last probe of the request, the
    status is 200 and no 404 is written, also when the copy breaks. *)
Theorem C10_opened_file_ends_walk (s : Server) (fs : GoOs.FileSystem)
  (raw p : string) (info : GoOs.FileInfo) (file : GoOs.File) :
  GoOs.Stat fs p = inr info -> GoOs.IsDir info = false ->
  GoOs.Open fs p = inr file ->
  (forall w, fst (tryServeFile s fs p w) = true)
  /\ (In p (probes (run s fs raw)) ->
      last (probes (run s fs raw)) = Some p
      /\ served_file (run s fs raw) = Some p
      /\ GoHttp.StatusCode (resp (run s fs raw)) = 200
      /\ GoHttp.body (resp (run s fs raw)) = GoOs.copied file).
Proof.
  intros St D O.
  assert (Sv : servable fs p = true)
    by (unfold servable, is_file, opens; by rewrite St, D, O).
  split.
  - intros w. by rewrite tryServeFile_returns.
  - intros I. rewrite (proj2 (run_outcome s fs raw)) in I.
    pose proof (tried_hit _ _ _ I Sv) as F.
    destruct (run_found s fs raw p F) as (file' & O' & R & P & S).
    rewrite O in O'. injection O' as <-.
    rewrite P, S, R. split; [by apply tried_last|].
    split; [done|]. split; apply file_response_status.
Qed.

Lemma C10_opened_file_ends_walk_witness :
  GoOs.Open faulty_fs "/site/video"
  = inr {| GoOs.copied := "RIFF";
           GoOs.copy_err := Some (PathError "read" "/site/video" EIO) |}
  /\ last (probes (run (NewServer "/site") faulty_fs "/video"))
     = Some "/site/video"
  /\ served_file (run (NewServer "/site") faulty_fs "/video")
     = Some "/site/video"
  /\ GoHttp.StatusCode (resp (run (NewServer "/site") faulty_fs "/video")) = 200
  /\ GoHttp.body (resp (run (NewServer "/site") faulty_fs "/video")) = "RIFF".
Proof.
  split; [vm_compute; reflexivity|].
  assert (St : GoOs.Stat faulty_fs "/site/video"
               = inr {| GoOs.IsDir := false |}) by (vm_compute; reflexivity).
  assert (O : GoOs.Open faulty_fs "/site/video"
              = inr {| GoOs.copied := "RIFF";
                       GoOs.copy_err :=
                         Some (PathError "read" "/site/video" EIO) |})
    by (vm_compute; reflexivity).
  destruct (C10_opened_file_ends_walk (NewServer "/site") faulty_fs "/video"
              "/site/video" _ _ St eq_refl O) as [_ H].
  apply H. vm_compute. by left.
Defined.

(* ------------------------------------------------------------------ *)
(** ** The trace and the log of a request *)
(* ------------------------------------------------------------------ *)

Lemma tryServeFile_effects s fs p w :
  calls (snd (tryServeFile s fs p w)) = calls w ++ attempt_calls fs p
  /\ logged (snd (tryServeFile s fs p w))
     = logged w ++ match logger s with
                   | StdoutLogger => attempt_lines fs p
                   | DiscardLogger => []
                   end.
Proof.
  unfold attempt_calls, attempt_lines.
  destruct (GoOs.Stat fs p) as [e|info] eqn:St.
  - rewrite (tryServeFile_stat_error _ _ _ _ _ St). simpl.
    destruct (logger s); by rewrite app_nil_r.
  - destruct (GoOs.IsDir info) eqn:D.
    + rewrite (tryServeFile_directory _ _ _ _ _ St D). simpl.
      destruct (logger s); by rewrite app_nil_r.
    + destruct (GoOs.Open fs p) as [e|file] eqn:O.
      * rewrite (tryServeFile_open_error _ _ _ _ _ _ St D O).
        destruct (logger s); simpl; by rewrite ?app_nil_r.
      * rewrite (tryServeFile_opened _ _ _ _ _ _ St D O).
        unfold served_world; cbn [snd calls logged].
        destruct (logger s); simpl; by rewrite ?app_nil_r.
Qed.

Lemma try_each_returns s fs cands : forall w,
  fst (try_each s fs cands w)
  = match find (servable fs) cands with Some _ => true | None => false end.
Proof.
  induction cands as [|p rest IH]; intros w; simpl; [done|].
  unfold bind. pose proof (tryServeFile_returns s fs p w) as R.
  destruct (tryServeFile s fs p w) as [b w1]; simpl in R. subst b.
  destruct (servable fs p); [done|]. apply IH.
Qed.

Lemma try_each_effects s fs cands : forall w,
  calls (snd (try_each s fs cands w))
  = calls w ++ flat_map (attempt_calls fs) (tried (servable fs) cands)
  /\ logged (snd (try_each s fs cands w))
     = logged w ++ match logger s with
                   | StdoutLogger =>
                       flat_map (attempt_lines fs) (tried (servable fs) cands)
                   | DiscardLogger => []
                   end.
Proof.
  induction cands as [|p rest IH]; intros w; simpl.
  - destruct (logger s); by rewrite !app_nil_r.
  - unfold bind. pose proof (tryServeFile_returns s fs p w) as R.
    destruct (tryServeFile_effects s fs p w) as [C L].
    destruct (tryServeFile s fs p w) as [b w1]; simpl in R, C, L. subst b.
    destruct (servable fs p); simpl.
    + rewrite C, L, !app_nil_r. done.
    + destruct (IH w1) as [C' L']. rewrite C', L', C, L, <- !app_assoc.
      by destruct (logger s).
Qed.

(** The whole trace and the whole log of a request. *)
Lemma run_effects s fs raw :
  calls (run s fs raw)
  = flat_map (attempt_calls fs)
      (tried (servable fs) (candidates (config s) raw))
  /\ logged (run s fs raw)
     = match logger s with
       | StdoutLogger =>
           entry_line raw
           :: flat_map (attempt_lines fs)
                (tried (servable fs) (candidates (config s) raw))
           ++ match find (servable fs) (candidates (config s) raw) with
              | Some _ => []
              | None => ["Not found: " +:+ request_path raw]
              end
       | DiscardLogger => []
       end.
Proof.
  rewrite run_walk. cbv zeta.
  set (w1 := add_log _ _ new_world).
  set (cands := candidates (config s) raw).
  pose proof (try_each_returns s fs cands w1) as R.
  destruct (try_each_effects s fs cands w1) as [C L].
  destruct (try_each s fs cands w1) as [b w2]; cbn [fst snd] in R, C, L.
  subst b.
  assert (C1 : calls w1 = []) by (subst w1; by destruct (logger s)).
  assert (L1 : logged w1 = match logger s with
                           | StdoutLogger => [entry_line raw]
                           | DiscardLogger => []
                           end) by (subst w1; by destruct (logger s)).
  rewrite C1 in C. rewrite L1 in L. clearbody w1.
  destruct (find (servable fs) cands); cbv iota.
  - rewrite C, L. destruct (logger s); by rewrite ?app_nil_r.
  - rewrite handle_404_world. unfold set_resp; cbn [calls logged].
    revert C L. destruct (logger s); simpl; by intros -> ->.
Qed.

(* ------------------------------------------------------------------ *)
(** ** Substrings *)
(* ------------------------------------------------------------------ *)

Lemma append_length (a b : string) :
  String.length (a +:+ b) = (String.length a + String.length b)%nat.
Proof.
  induction a as [|x a IH]; [reflexivity|].
  rewrite append_cons; simpl. by rewrite IH.
Qed.

Lemma substring_skip a x i n :
  substring (String.length a + i) n (a +:+ x) = substring i n x.
Proof. induction a as [|c a IH]; [reflexivity|]. rewrite append_cons. exact IH. Qed.

Lemma substring_prefix sub post :
  substring 0 (String.length sub) (sub +:+ post) = sub.
Proof.
  induction sub as [|c sub IH].
  - rewrite append_nil_l. by destruct post.
  - rewrite append_cons. simpl. by rewrite IH.
Qed.

Lemma substring_prefix_inv sub : forall s,
  substring 0 (String.length sub) s = sub -> exists post, s = sub +:+ post.
Proof.
  induction sub as [|c sub IH]; intros s H.
  - by exists s.
  - destruct s as [|d s]; [done|]. simpl in H. injection H as -> H.
    destruct (IH s H) as [post ->]. by exists post.
Qed.

Lemma substring_at_inv sub i : forall s,
  substring i (String.length sub) s = sub ->
  exists pre post, s = pre +:+ sub +:+ post.
Proof.
  induction i as [|i IH]; intros s H.
  - destruct (substring_prefix_inv sub s H) as [post ->]. by exists "", post.
  - destruct s as [|d s].
    + exists "", "". destruct sub; [done|]. by destruct i.
    + simpl in H. destruct (IH s H) as (pre & post & ->).
      by exists (String d pre), post.
Qed.

Lemma slice_substring s i m :
  GoStrings.slice s i (i + m) = substring i m s.
Proof. unfold GoStrings.slice. f_equal. lia. Qed.

Lemma contains_loop_spec s sub n : forall i,
  contains_loop s sub i n = true <->
  exists j, (i <= j < i + n)%nat /\ substring j (String.length sub) s = sub.
Proof.
  induction n as [|n IH]; intros i; simpl.
  - split; [done|]. intros (j & ? & _). lia.
  - rewrite slice_substring.
    destruct (String.eqb_spec (substring i (String.length sub) s) sub) as [E|E].
    + split; [|done]. intros _. exists i. split; [lia|done].
    + rewrite IH. split; intros (j & B & H).
      * exists j. split; [lia|done].
      * exists j. split; [|done].
        destruct (Nat.eq_dec j i) as [->|]; [done|lia].
Qed.

(** The extension of a path that ends in [".html"]. *)
Lemma Ext_html a : GoFilepath.Ext (a +:+ ".html") = ".html".
Proof.
  unfold GoFilepath.Ext. rewrite append_length.
  assert (G : forall k, String.get (k + String.length a) (a +:+ ".html")
                        = String.get k ".html")
    by (intros k; symmetry; apply append_correct2).
  replace (String.length a + String.length ".html")%nat
    with (5 + String.length a)%nat by (simpl; lia).
  pose proof (G 4%nat) as G4. pose proof (G 3%nat) as G3.
  pose proof (G 2%nat) as G2. pose proof (G 1%nat) as G1.
  pose proof (G 0%nat) as G0. cbn [Nat.add String.get] in G4, G3, G2, G1, G0.
  cbn [Nat.add GoFilepath.Ext_loop].
  rewrite G4; simpl. rewrite G3; simpl. rewrite G2; simpl.
  rewrite G1; simpl. rewrite G0; simpl.
  unfold GoStrings.slice. rewrite append_length.
  replace (String.length a + String.length ".html" - String.length a)%nat
    with 5%nat by (simpl; lia).
  replace (String.length a) with (String.length a + 0)%nat at 1 by lia.
  by rewrite substring_skip.
Qed.

(* ------------------------------------------------------------------ *)
(** ** Candidates, once more *)
(* ------------------------------------------------------------------ *)

Lemma candidates_agree c1 c2 raw :
  RootDir c1 = RootDir c2 -> AddHtmlExtension c1 = AddHtmlExtension c2 ->
  candidates c1 raw = candidates c2 raw.
Proof.
  intros R A.
  unfold candidates, candidate_C, candidate_B, candidate_A, tries_B.
  by rewrite R, A.
Qed.

Lemma candidate_B_fresh c raw : candidate_B c raw <> candidate_A c raw.
Proof.
  unfold candidate_B. intros E.
  rewrite <- (append_nil_r (candidate_A c raw)) in E at 2.
  by apply String.app_inj in E.
Qed.

Lemma candidates_NoDup c raw : NoDup (candidates c raw).
Proof.
  destruct (candidate_C_fresh c raw) as [CA CB].
  pose proof (candidate_B_fresh c raw) as BA.
  unfold candidates.
  destruct (tries_B c raw); destruct (tries_C raw); simpl;
    repeat (apply NoDup_cons; split);
    rewrite ?list_elem_of_In; simpl; try apply NoDup_nil_2; intuition congruence.
Qed.

Lemma tried_prefix ok cands : exists rest, cands = tried ok cands ++ rest.
Proof.
  induction cands as [|p l [rest IH]]; simpl; [by exists []|].
  destruct (ok p).
  - by exists l.
  - exists rest. simpl. by rewrite <- IH.
Qed.

Lemma tried_head ok p l : head (tried ok (p :: l)) = Some p.
Proof. simpl. by destruct (ok p). Qed.

Lemma tried_length ok cands :
  (List.length (tried ok cands) <= List.length cands)%nat.
Proof.
  induction cands as [|p l IH]; simpl; [done|].
  destruct (ok p); simpl; lia.
Qed.

Lemma attempt_calls_copies fs p :
  List.filter is_copy (attempt_calls fs p)
  = if servable fs p then [CallCopy p] else [].
Proof.
  unfold attempt_calls, servable, is_file, opens.
  destruct (GoOs.Stat fs p) as [|info]; [done|].
  destruct (GoOs.IsDir info); [done|]. by destruct (GoOs.Open fs p).
Qed.

Lemma copies_tried fs cands :
  List.filter is_copy (flat_map (attempt_calls fs) (tried (servable fs) cands))
  = match find (servable fs) cands with
    | Some p => [CallCopy p]
    | None => []
    end.
Proof.
  induction cands as [|p l IH]; [done|]. cbn [tried find].
  destruct (servable fs p) eqn:E; cbn [flat_map].
  - by rewrite app_nil_r, attempt_calls_copies, E.
  - by rewrite List.filter_app, attempt_calls_copies, E, IH.
Qed.

Lemma attempt_calls_open fs p q :
  In (CallOpen q) (attempt_calls fs p) -> q = p /\ is_file fs p = true.
Proof.
  unfold attempt_calls, is_file.
  destruct (GoOs.Stat fs p) as [|info]; simpl; [by intros [|[]]|].
  destruct (GoOs.IsDir info); simpl; [by intros [|[]]|].
  destruct (GoOs.Open fs p); simpl; intros H;
    repeat destruct H as [H|H]; try done; by injection H.
Qed.

Lemma attempt_calls_close fs p :
  is_file fs p = true -> opens fs p = true ->
  In (CallClose p) (attempt_calls fs p).
Proof.
  unfold attempt_calls, is_file, opens.
  destruct (GoOs.Stat fs p) as [|info]; [done|].
  destruct (GoOs.IsDir info); [done|].
  destruct (GoOs.Open fs p); [done|]. simpl. tauto.
Qed.

(* ------------------------------------------------------------------ *)
(** ** Further properties of the handler, its callers and the tests *)
(* ------------------------------------------------------------------ *)

(** X1: logging never affects what a request does.  Two servers whose
    configurations agree on the root, on the extension fallback and on
    the not-found handler answer every request with the same response
    and make the same file-system calls, whatever their loggers. *)
Theorem X1_logging_never_affects_the_response (s1 s2 : Server)
  (fs : GoOs.FileSystem) (raw : string) :
  RootDir (config s1) = RootDir (config s2) ->
  AddHtmlExtension (config s1) = AddHtmlExtension (config s2) ->
  NotFoundHandler (config s1) = NotFoundHandler (config s2) ->
  resp (run s1 fs raw) = resp (run s2 fs raw)
  /\ calls (run s1 fs raw) = calls (run s2 fs raw).
Proof.
  intros R A H. pose proof (candidates_agree _ _ raw R A) as C.
  split.
  - destruct (find (servable fs) (candidates (config s1) raw)) as [p|] eqn:F.
    + destruct (run_found s1 fs raw p F) as (f1 & O1 & -> & _).
      rewrite C in F.
      destruct (run_found s2 fs raw p F) as (f2 & O2 & -> & _).
      congruence.
    + destruct (run_not_found s1 fs raw F) as (-> & _). rewrite C in F.
      destruct (run_not_found s2 fs raw F) as (-> & _).
      unfold not_found_response. by rewrite H.
  - by rewrite (proj1 (run_effects s1 fs raw)), (proj1 (run_effects s2 fs raw)), C.
Qed.

Lemma X1_logging_never_affects_the_response_witness :
  logged (run (NewServer "/site") faulty_fs "/locked")
  <> logged (run (main_server {| flag_port := "8080"; flag_dir := "/site";
                                 flag_noHtmlExt := false;
                                 flag_noLogging := true |})
               faulty_fs "/locked")
  /\ resp (run (NewServer "/site") faulty_fs "/locked")
     = resp (run (main_server {| flag_port := "8080"; flag_dir := "/site";
                                 flag_noHtmlExt := false;
                                 flag_noLogging := true |})
               faulty_fs "/locked").
Proof.
  split; [vm_compute; discriminate|].
  apply (X1_logging_never_affects_the_response (NewServer "/site")
           (main_server {| flag_port := "8080"; flag_dir := "/site";
                           flag_noHtmlExt := false; flag_noLogging := true |})
           faulty_fs "/locked"); reflexivity.
Defined.

(** X2: a server built by [NewServerWithConfig] leaves the log empty
    exactly when [EnableLogging] is off; with logging on every request
    logs at least its entry line. *)
Theorem X2_log_empty_iff_logging_disabled (c : Config) (fs : GoOs.FileSystem)
  (raw : string) :
  logged (run (NewServerWithConfig c) fs raw) = [] <-> EnableLogging c = false.
Proof.
  rewrite (proj2 (run_effects _ fs raw)). unfold NewServerWithConfig.
  cbn [logger]. destruct (EnableLogging c); split; done.
Qed.

(** X3: the log of a logging server is exactly: the entry line with the
    path before the slash is stripped; then, for each probed candidate in
    order, nothing when [Stat] fails or reports a directory, the
    "Error opening file" line when [Open] fails, and "Serving file"
    followed, when the copy breaks, by "Error serving file" for the file
    served; then "Not found" with the request path when nothing was
    served. *)
Theorem X3_log_of_a_request (s : Server) (fs : GoOs.FileSystem) (raw : string) :
  logger s = StdoutLogger ->
  logged (run s fs raw)
  = entry_line raw
    :: flat_map (attempt_lines fs) (probes (run s fs raw))
    ++ match outcome (run s fs raw) with
       | Found _ _ => []
       | NotFound => ["Not found: " +:+ request_path raw]
       end.
Proof.
  intros L. destruct (run_outcome s fs raw) as [-> ->].
  rewrite (proj2 (run_effects s fs raw)), L. unfold resolve_in.
  by destruct (find (servable fs) (candidates (config s) raw)).
Qed.

Lemma X3_log_of_a_request_witness :
  logger (NewServer "/site") = StdoutLogger
  /\ logged (run (NewServer "/site") faulty_fs "/video")
     = ["Handling request for: /video"; "Serving file: /site/video";
        "Error serving file /site/video: read /site/video: input/output error"]
  /\ logged (run (NewServer "/site") faulty_fs "/locked")
     = ["Handling request for: /locked";
        "Error opening file /site/locked: open /site/locked: permission denied";
        "Serving file: /site/locked.html"].
Proof.
  split; [reflexivity|]. split.
  - rewrite (X3_log_of_a_request (NewServer "/site") faulty_fs "/video"
               eq_refl). vm_compute. reflexivity.
  - rewrite (X3_log_of_a_request (NewServer "/site") faulty_fs "/locked"
               eq_refl). vm_compute. reflexivity.
Defined.

(** X4: the file-system calls of a request are those of its probes, one
    attempt after the other: [Stat] alone, or [Stat] and [Open], or
    [Stat], [Open], the copy and [Close].  So [Open] is only called on a
    path that [Stat] reported as a non-directory, every file that was
    opened is closed before the handler returns, also when the copy
    breaks, and at most one file is copied per request. *)
Theorem X4_trace_of_a_request (s : Server) (fs : GoOs.FileSystem)
  (raw : string) :
  calls (run s fs raw) = flat_map (attempt_calls fs) (probes (run s fs raw))
  /\ (forall p, In (CallOpen p) (calls (run s fs raw)) ->
                is_file fs p = true
                /\ (opens fs p = true ->
                    In (CallClose p) (calls (run s fs raw))))
  /\ (List.length (List.filter is_copy (calls (run s fs raw))) <= 1)%nat.
Proof.
  destruct (run_effects s fs raw) as [C _].
  rewrite (proj2 (run_outcome s fs raw)), C.
  split; [done|]. split.
  - intros p H. apply in_flat_map in H as (q & I & H).
    apply attempt_calls_open in H as [-> F]. split; [done|].
    intros O. apply in_flat_map. exists q. split; [done|].
    by apply attempt_calls_close.
  - rewrite copies_tried. destruct (find _ _); simpl; lia.
Qed.

(** X5: whatever is served is one of the request's candidates, was
    reported by [Stat] as a non-directory and was opened: a directory is
    never served and never listed. *)
Theorem X5_served_file_is_a_probed_non_directory (s : Server)
  (fs : GoOs.FileSystem) (raw p : string) :
  served_file (run s fs raw) = Some p ->
  In p (candidates (config s) raw)
  /\ exists info file,
       GoOs.Stat fs p = inr info /\ GoOs.IsDir info = false
       /\ GoOs.Open fs p = inr file.
Proof.
  intros Sp.
  destruct (find (servable fs) (candidates (config s) raw)) as [q|] eqn:F.
  - destruct (run_found s fs raw q F) as (file & O & _ & _ & Sq).
    rewrite Sq in Sp. injection Sp as ->.
    apply find_some in F as [I Sv]. split; [done|].
    unfold servable, is_file in Sv.
    destruct (GoOs.Stat fs p) as [|info]; [done|].
    exists info, file. destruct (GoOs.IsDir info); [done|]. done.
  - destruct (run_not_found s fs raw F) as (_ & _ & Sq). congruence.
Qed.

Lemma X5_served_file_is_a_probed_non_directory_witness :
  served_file (run (NewServer "/site") test_fs "/nested/")
  = Some "/site/nested/index.html"
  /\ exists info file,
       GoOs.Stat test_fs "/site/nested/index.html" = inr info
       /\ GoOs.IsDir info = false
       /\ GoOs.Open test_fs "/site/nested/index.html" = inr file.
Proof.
  split; [vm_compute; reflexivity|].
  apply (X5_served_file_is_a_probed_non_directory (NewServer "/site") test_fs
           "/nested/" "/site/nested/index.html").
  vm_compute; reflexivity.
Defined.

(** X6: the ".html" candidate is probed exactly when the extension
    fallback is enabled, the request path has no extension and the exact
    path was not served; with the fallback disabled, or for a path that
    has an extension, it is never probed. *)
Theorem X6_html_candidate_probed_iff (s : Server) (fs : GoOs.FileSystem)
  (raw : string) :
  In (candidate_B (config s) raw) (probes (run s fs raw)) <->
  AddHtmlExtension (config s) = true
  /\ GoFilepath.Ext (request_path raw) = ""
  /\ servable fs (candidate_A (config s) raw) = false.
Proof.
  rewrite (proj2 (run_outcome s fs raw)).
  destruct (candidate_C_fresh (config s) raw) as [CA CB].
  pose proof (candidate_B_fresh (config s) raw) as BA.
  assert (T : tries_B (config s) raw = true <->
              AddHtmlExtension (config s) = true
              /\ GoFilepath.Ext (request_path raw) = "").
  { unfold tries_B. rewrite andb_true_iff, String.eqb_eq. done. }
  unfold candidates.
  destruct (servable fs (candidate_A (config s) raw)) eqn:SA;
    destruct (tries_B (config s) raw) eqn:TB;
    destruct (tries_C raw); simpl; rewrite ?SA; simpl;
    try destruct (servable fs (candidate_B (config s) raw)); simpl;
    try destruct (servable fs (candidate_C (config s) raw)); simpl;
    split; intros H; try (destruct H as (H1 & H2 & H3); discriminate);
    try (destruct T as [T _]; destruct (T eq_refl); done);
    try (destruct H as (H1 & H2 & _); destruct T as [_ T];
         specialize (T (conj H1 H2)); discriminate);
    try tauto; intuition congruence.
Qed.

(** X7: a request makes at least one and at most three [Stat] calls, the
    first of them on candidate A, and never probes the same path twice. *)
Theorem X7_probes_bounded_and_distinct (s : Server) (fs : GoOs.FileSystem)
  (raw : string) :
  head (probes (run s fs raw)) = Some (candidate_A (config s) raw)
  /\ (1 <= List.length (probes (run s fs raw)) <= 3)%nat
  /\ NoDup (probes (run s fs raw)).
Proof.
  rewrite (proj2 (run_outcome s fs raw)).
  assert (Hd : head (tried (servable fs) (candidates (config s) raw))
               = Some (candidate_A (config s) raw)) by apply tried_head.
  split; [done|]. split.
  - pose proof (tried_length (servable fs) (candidates (config s) raw)) as L.
    assert (List.length (candidates (config s) raw) <= 3)%nat
      by (unfold candidates; destruct (tries_B _ _); destruct (tries_C _);
          simpl; lia).
    destruct (tried _ _); simpl in *; [done|lia].
  - destruct (tried_prefix (servable fs) (candidates (config s) raw))
      as [rest E].
    pose proof (candidates_NoDup (config s) raw) as N. rewrite E in N.
    by apply NoDup_app in N as [? _].
Qed.

(** X8: the handler reads the raw path only through its cleaned form and
    through its last byte: two raw paths that clean to the same path and
    agree on ending in "/" leave the same response, log and trace. *)
Theorem X8_run_depends_on_cleaned_path (s : Server) (fs : GoOs.FileSystem)
  (raw1 raw2 : string) :
  GoFilepath.Clean raw1 = GoFilepath.Clean raw2 ->
  GoStrings.HasSuffix raw1 "/" = GoStrings.HasSuffix raw2 "/" ->
  run s fs raw1 = run s fs raw2.
Proof.
  intros C H. unfold run, ServeHTTP. cbn [GoHttp.URL_Path].
  by rewrite C, H.
Qed.

Lemma X8_run_depends_on_cleaned_path_witness :
  "/docs/.././about//" <> "/about/"
  /\ run (NewServer "/site") test_fs "/docs/.././about//"
     = run (NewServer "/site") test_fs "/about/".
Proof.
  split; [discriminate|].
  apply (X8_run_depends_on_cleaned_path (NewServer "/site") test_fs
           "/docs/.././about//" "/about/"); vm_compute; reflexivity.
Defined.

(** X9: a request whose path cleans to "/" is answered with the root's
    [index.html] whenever that file can be served: it is the only path
    probed and the status is 200. *)
Theorem X9_root_request_serves_index (s : Server) (fs : GoOs.FileSystem)
  (raw : string) :
  GoFilepath.Clean raw = "/" ->
  servable fs (GoFilepath.Join [RootDir (config s); "/index.html"]) = true ->
  probes (run s fs raw)
  = [GoFilepath.Join [RootDir (config s); "/index.html"]]
  /\ served_file (run s fs raw)
     = Some (GoFilepath.Join [RootDir (config s); "/index.html"])
  /\ GoHttp.StatusCode (resp (run s fs raw)) = 200.
Proof.
  intros C Sv.
  assert (A : candidate_A (config s) raw
              = GoFilepath.Join [RootDir (config s); "/index.html"])
    by (unfold candidate_A; by rewrite request_path_clean, C).
  assert (F : find (servable fs) (candidates (config s) raw)
              = Some (candidate_A (config s) raw))
    by (unfold candidates; simpl; by rewrite A, Sv).
  destruct (run_found s fs raw _ F) as (file & O & R & P & S).
  rewrite P, S, R, <- A. split; [|split; [done|]].
  - unfold candidates; simpl. by rewrite A, Sv.
  - apply file_response_status.
Qed.

Lemma X9_root_request_serves_index_witness :
  GoFilepath.Clean "/../" = "/"
  /\ probes (run (NewServer "/site") test_fs "/../") = ["/site/index.html"]
  /\ served_file (run (NewServer "/site") test_fs "/../")
     = Some "/site/index.html"
  /\ GoHttp.StatusCode (resp (run (NewServer "/site") test_fs "/../")) = 200.
Proof.
  split; [vm_compute; reflexivity|].
  apply (X9_root_request_serves_index (NewServer "/site") test_fs "/../");
    vm_compute; reflexivity.
Defined.

Lemma request_path_not_root raw : request_path raw <> "/".
Proof.
  rewrite request_path_clean.
  by destruct (String.eqb_spec (GoFilepath.Clean raw) "/").
Qed.

(** X10: the branch that strips a trailing slash never changes the path:
    the request path is the cleaned path, with "/" rewritten to
    "/index.html".  It is never empty, never ends in "/", and normalizing
    it again gives it back. *)
Theorem X10_request_path_normal_form (raw : string) :
  request_path raw
  = (if String.eqb (GoFilepath.Clean raw) "/" then "/index.html"
     else GoFilepath.Clean raw)
  /\ request_path raw <> ""
  /\ GoStrings.HasSuffix (request_path raw) "/" = false
  /\ request_path (request_path raw) = request_path raw.
Proof.
  split; [apply request_path_clean|].
  pose proof (request_path_not_root raw) as NR.
  destruct (request_path_shape raw) as (out & E & V & _).
  assert (F : Forall element (rev out))
    by (apply Forall_rev; by eapply valid_out_elements).
  split; [rewrite E; by apply render_not_empty|]. split.
  - destruct (GoStrings.HasSuffix (request_path raw) "/") eqn:H; [|done].
    rewrite E in H. apply HasSuffix_sep_render in H; [|done].
    rewrite <- E in H. done.
  - assert (C : GoFilepath.Clean (request_path raw) = request_path raw)
      by (rewrite E; by apply Clean_render).
    rewrite (request_path_clean (request_path raw)), C.
    apply String.eqb_neq in NR. by rewrite NR.
Qed.

(** X11: for a raw path that begins with "/", the path the handler works
    with, and hands to the not-found handler, is "/" followed by one or
    more real names joined by "/": no empty, "." or ".." element is left
    in it. *)
Theorem X11_rooted_request_path (rest : string) :
  exists names,
    names <> []
    /\ Forall normal names
    /\ request_path ("/" +:+ rest) = "/" +:+ GoStrings.Join names "/".
Proof.
  destruct (request_path_shape ("/" +:+ rest)) as (out & E & V & NE).
  change (GoFilepath.rooted ("/" +:+ rest)) with true in E, V, NE.
  exists (rev out). split; [|split].
  - intros H. apply (f_equal (@rev string)) in H.
    rewrite rev_involutive in H. by apply NE.
  - apply Forall_rev. by apply valid_out_rooted.
  - exact E.
Qed.

(** X12: the not-found response of a custom handler carries no header
    set by the server; the standard one carries the two headers of
    [http.Error]. *)
Theorem X12_not_found_headers (s : Server) (fs : GoOs.FileSystem)
  (raw : string) :
  outcome (run s fs raw) = NotFound ->
  GoHttp.Header (resp (run s fs raw))
  = match NotFoundHandler (config s) with
    | Some _ => ∅
    | None =>
        <["X-Content-Type-Options" := "nosniff"]>
          (<["Content-Type" := "text/plain; charset=utf-8"]> ∅)
    end.
Proof.
  intros H%outcome_NotFound.
  destruct (run_not_found s fs raw H) as (-> & _).
  unfold not_found_response. by destruct (NotFoundHandler (config s)).
Qed.

Lemma X12_not_found_headers_witness :
  outcome (run custom_server test_fs "/nonexistent") = NotFound
  /\ GoHttp.Header (resp (run custom_server test_fs "/nonexistent")) = ∅.
Proof.
  split; [vm_compute; reflexivity|].
  apply (X12_not_found_headers custom_server test_fs "/nonexistent").
  vm_compute; reflexivity.
Defined.

(** X13: the helper [contains] of the tests is true exactly when
    [substr] occurs in [s]; in particular the empty string occurs in
    every string, the empty one included, and a [substr] longer than [s]
    never occurs (the loop bound is negative and the body never runs). *)
Theorem X13_contains_spec (s substr : string) :
  (contains s substr = true <->
   exists pre post, s = pre +:+ substr +:+ post)
  /\ contains s "" = true
  /\ ((String.length s < String.length substr)%nat ->
      contains s substr = false).
Proof.
  split; [|split].
  - unfold contains. rewrite contains_loop_spec. split.
    + intros (j & _ & H). by apply substring_at_inv in H.
    + intros (pre & post & ->). exists (String.length pre). split.
      * rewrite !append_length. lia.
      * replace (String.length pre) with (String.length pre + 0)%nat at 1
          by lia.
        by rewrite substring_skip, substring_prefix.
  - unfold contains. apply contains_loop_spec. exists O. split.
    + simpl. lia.
    + by destruct s.
  - intros L. unfold contains.
    replace (Z.to_nat _) with O by lia. reflexivity.
Qed.

(** X14: the command line of [main.go].  Without flags the server is the
    one [NewServer] and [DefaultConfig] give for "./public", which is
    also the example program's without arguments.  [-no-logging] leaves
    the log empty, [-no-html-ext] keeps the ".html" candidate from ever
    being probed, and, no handler being configurable from the command
    line, every 404 has the standard body. *)
Theorem X14_command_line (f : Flags) (fs : GoOs.FileSystem) (raw prog : string) :
  main_server default_flags = NewServer "./public"
  /\ NewServerWithConfig DefaultConfig = NewServer "./public"
  /\ example_basicServer [prog] = main_server default_flags
  /\ (flag_noLogging f = true -> logged (run (main_server f) fs raw) = [])
  /\ (flag_noHtmlExt f = true ->
      ~ In (candidate_B (main_config f) raw) (probes (run (main_server f) fs raw)))
  /\ (outcome (run (main_server f) fs raw) = NotFound ->
      GoHttp.StatusCode (resp (run (main_server f) fs raw)) = 404
      /\ GoHttp.body (resp (run (main_server f) fs raw))
         = "404 page not found" +:+ String (ascii_of_nat 10) "").
Proof.
  split; [reflexivity|]. split; [reflexivity|]. split; [reflexivity|].
  split; [|split].
  - intros L. rewrite (proj2 (run_effects _ fs raw)).
    unfold main_server, NewServerWithConfig, main_config; cbn [logger EnableLogging].
    by rewrite L.
  - intros H I. rewrite (proj2 (run_outcome _ fs raw)) in I.
    change (config (main_server f)) with (main_config f) in I.
    apply tried_incl in I.
    destruct (candidate_C_fresh (main_config f) raw) as [_ CB].
    pose proof (candidate_B_fresh (main_config f) raw) as BA.
    unfold candidates, tries_B in I. cbn [main_config AddHtmlExtension] in I.
    rewrite H in I. cbn [negb andb app] in I.
    destruct (tries_C raw); simpl in I; intuition congruence.
  - intros H%outcome_NotFound.
    destruct (run_not_found _ fs raw H) as (-> & _).
    apply (not_found_response_status (config (main_server f))).
Qed.

(** X15: a file served through the ".html" fallback or as a directory
    index always carries Content-Type "text/html"; only an exact match
    (candidate A) can be served with another type, or with none. *)
Theorem X15_fallbacks_are_html (s : Server) (fs : GoOs.FileSystem)
  (raw : string) :
  content_type_of (candidate_B (config s) raw) = Some "text/html"
  /\ content_type_of (candidate_C (config s) raw) = Some "text/html"
  /\ (forall p ct,
        outcome (run s fs raw) = Found p ct ->
        p <> candidate_A (config s) raw -> ct = Some "text/html").
Proof.
  assert (B : content_type_of (candidate_B (config s) raw) = Some "text/html").
  { unfold content_type_of, candidate_B. by rewrite Ext_html. }
  assert (C : content_type_of (candidate_C (config s) raw) = Some "text/html").
  { unfold content_type_of, candidate_C.
    destruct (candidate_A_shape (config s) raw) as (r & out & -> & V).
    rewrite Join_render_normal by (try done; apply index_html_normal).
    change ["index.html"] with ["" +:+ "index.html"].
    rewrite <- render_snoc_append.
    change "index.html" with ("index" +:+ ".html").
    by rewrite <- append_assoc, Ext_html. }
  split; [done|]. split; [done|].
  intros p ct O NA. rewrite (proj1 (run_outcome s fs raw)) in O.
  unfold resolve_in in O.
  destruct (find (servable fs) (candidates (config s) raw)) as [q|] eqn:F;
    [|done].
  injection O as -> <-. apply find_some in F as [I _].
  unfold candidates in I.
  destruct (tries_B (config s) raw); destruct (tries_C raw); simpl in I;
    intuition congruence.
Qed.

(** The assertions of [TestServer] and [TestServerWithCustomConfig], with
    the tests' own [contains]: the status is the expected one and the
    body contains the expected text. *)
Example server_test_assertions :
  forallb
    (fun '(srv, path, expectedStatus, expectedBody) =>
       let '(status, body) := answer srv test_fs path in
       Z.eqb status expectedStatus && contains body expectedBody)
    [ (NewServer "/site", "/", 200, "Index Page");
      (NewServer "/site", "/about", 200, "About Page");
      (NewServer "/site", "/about/", 200, "About Page");
      (NewServer "/site", "/about.html", 200, "About Page");
      (NewServer "/site", "/nonexistent", 404, "404 page not found");
      (custom_server, "/about", 404, "Custom 404: /about not found");
      (custom_server, "/about.html", 200, "About Page");
      (custom_server, "/nonexistent", 404,
        "Custom 404: /nonexistent not found") ]
  = true.
Proof. vm_compute. reflexivity. Qed.
